(** * Engagement-survey backend: risk metrics, labels and narrative repair

    A shallow embedding of the Python backend (FastAPI + pandas) and the
    properties of its risk-metrics pipeline.

    Modelling conventions, used throughout:
    - a Python [float] holding a survey value is an exact rational [Q]; the
      comparisons of the code against its integer thresholds are exact on
      IEEE doubles as well, and the Likert arithmetic on halves and quarters
      is exact in binary; the representation error of other doubles is not
      modelled;
    - [NaN], [None] and [NaT] in a pandas cell are the one null cell [NaN];
    - a pandas [DataFrame] is its ordered list of column names and its list
      of rows, each row a finite map from column name to cell;
    - a Python exception is the [Raise] branch of [result];
    - a Python [str] that may hold non-ASCII text (the reply of the language
      model) is the list of its code points; column names, labels and dates
      are ASCII and use [string]. *)

From Stdlib Require Import ZArith QArith Qround Qabs Lia List String Ascii Bool.
From Stdlib Require Import Permutation Sorted Lqa.
From stdpp Require Import base option list gmap strings pretty.
Import ListNotations.

Unset Default Proof Using.

Local Open Scope string_scope.
Local Open Scope Z_scope.

(* ===================================================================== *)
(** * Part I: the embedding                                               *)
(* ===================================================================== *)

(** ** Python exceptions *)

Inductive exn : Type :=
  | KeyError (key : string)
  | IndexError
  | ValueError
  | AttributeError
  | JSONDecodeError
  | RecursionError
  | ClientError.

Inductive result (A : Type) : Type :=
  | Ok (a : A)
  | Raise (e : exn).
Arguments Ok {A} a.
Arguments Raise {A} e.

#[global] Instance result_ret : MRet result := fun _ a => Ok a.
#[global] Instance result_bind : MBind result := fun _ _ f m =>
  match m with Ok a => f a | Raise e => Raise e end.

(** [try: body except Exception: handler] *)
Definition try_except {A} (body : result A) (handler : exn -> A) : A :=
  match body with Ok a => a | Raise e => handler e end.

(** ** Numbers *)

Module Num.

Definition Qltb (a b : Q) : bool := negb (Qle_bool b a).
Definition Qleb (a b : Q) : bool := Qle_bool a b.

(** [x.clip(lo, hi)] *)
Definition clip (x lo hi : Q) : Q :=
  if Qltb x lo then lo else if Qltb hi x then hi else x.

Definition pow10 (d : nat) : Q := inject_Z (10 ^ Z.of_nat d).

(** Nearest integer, ties to the even one: what numpy's [round] and
    Python's [round] do on the scaled value. *)
Definition rint (q : Q) : Z :=
  let f := Qfloor q in
  match Qcompare (q - inject_Z f) (1 # 2) with
  | Lt => f
  | Gt => f + 1
  | Eq => if Z.even f then f else f + 1
  end.

(** [x.round(d)] *)
Definition round (d : nat) (q : Q) : Q := inject_Z (rint (q * pow10 d)) / pow10 d.

(** Nearest integer, ties away from zero: [decimal.ROUND_HALF_UP]. *)
Definition rint_half_up (q : Q) : Z :=
  if Qltb q 0 then - Qfloor (Qabs q + (1 # 2)) else Qfloor (q + (1 # 2)).

(** [Decimal(str(x)).quantize(Decimal("0.01"), rounding=ROUND_HALF_UP)] *)
Definition quantize2 (q : Q) : Q := inject_Z (rint_half_up (q * 100)) / 100.

Definition sum (l : list Q) : Q := fold_right Qplus 0%Q l.

End Num.

(** ** Dates ([datetime]) *)

Module Datetime.

Record date : Type := mkdate { year : Z; month : Z; day : Z }.

(** A [datetime]: a calendar day and the microseconds since midnight. *)
Record datetime : Type := mkdatetime { dt_date : date; dt_micro : Z }.

Definition is_leap (y : Z) : bool :=
  ((y mod 4 =? 0) && (negb (y mod 100 =? 0) || (y mod 400 =? 0)))%bool.

Definition days_in_month (y m : Z) : Z :=
  if m =? 2 then (if is_leap y then 29 else 28)
  else if ((m =? 4) || (m =? 6) || (m =? 9) || (m =? 11))%bool then 30
  else 31.

Definition days_before_year (y : Z) : Z :=
  let p := y - 1 in p * 365 + p / 4 - p / 100 + p / 400.

Fixpoint days_before_month_aux (y : Z) (m : nat) : Z :=
  match m with
  | O => 0
  | S k => days_before_month_aux y k + days_in_month y (Z.of_nat (S k))
  end.

Definition days_before_month (y m : Z) : Z :=
  days_before_month_aux y (Z.to_nat (m - 1)).

(** [date.toordinal()]: 1 is 0001-01-01. *)
Definition toordinal (d : date) : Z :=
  days_before_year (year d) + days_before_month (year d) (month d) + day d.

(** [(a - b).days] for two datetimes at midnight. *)
Definition days_between (a b : date) : Z := toordinal a - toordinal b.

Definition timestamp (t : datetime) : Z :=
  toordinal (dt_date t) * 86400000000 + dt_micro t.

(** The constructor's range check: [ValueError] outside it. *)
Definition valid_date (d : date) : bool :=
  ((1 <=? year d) && (year d <=? 9999) && (1 <=? month d) && (month d <=? 12)
   && (1 <=? day d) && (day d <=? days_in_month (year d) (month d)))%bool.

Definition digit (a : ascii) : option Z :=
  let n := Z.of_nat (nat_of_ascii a) in
  if ((48 <=? n) && (n <=? 57))%bool then Some (n - 48) else None.

(** The directive [%m], the regular expression [1[0-2]|0[1-9]|[1-9]]:
    the first alternative that matches, and the text after it. *)
Definition match_m (s : string) : option (Z * string) :=
  match s with
  | EmptyString => None
  | String a r =>
      match digit a with
      | None => None
      | Some x =>
          let two :=
            match r with
            | String b r' =>
                match digit b with
                | Some y =>
                    if ((x =? 1) && (y <=? 2))%bool then Some (10 + y, r')
                    else if ((x =? 0) && (1 <=? y))%bool then Some (y, r')
                    else None
                | None => None
                end
            | EmptyString => None
            end in
          match two with
          | Some v => Some v
          | None => if 1 <=? x then Some (x, r) else None
          end
      end
  end.

(** The directive [%d], the regular expression
    [3[0-1]|[1-2]\d|0[1-9]|[1-9]| [1-9]]. *)
Definition match_d (s : string) : option (Z * string) :=
  match s with
  | EmptyString => None
  | String a r =>
      let second := match r with
                    | String b r' => match digit b with Some y => Some (y, r') | None => None end
                    | EmptyString => None
                    end in
      match digit a with
      | Some x =>
          let two :=
            match second with
            | Some (y, r') =>
                if ((x =? 3) && (y <=? 1))%bool then Some (30 + y, r')
                else if ((1 <=? x) && (x <=? 2))%bool then Some (10 * x + y, r')
                else if ((x =? 0) && (1 <=? y))%bool then Some (y, r')
                else None
            | None => None
            end in
          match two with
          | Some v => Some v
          | None => if 1 <=? x then Some (x, r) else None
          end
      | None =>
          if Ascii.eqb a " "%char then
            match second with
            | Some (y, r') => if 1 <=? y then Some (y, r') else None
            | None => None
            end
          else None
      end
  end.

(** The directive [%Y]: four digits. *)
Definition match_Y (s : string) : option (Z * string) :=
  match s with
  | String a (String b (String c (String d r))) =>
      match digit a, digit b, digit c, digit d with
      | Some w, Some x, Some y, Some z => Some (1000 * w + 100 * x + 10 * y + z, r)
      | _, _, _, _ => None
      end
  | _ => None
  end.

Definition expect (c : ascii) (s : string) : option string :=
  match s with
  | String a r => if Ascii.eqb a c then Some r else None
  | EmptyString => None
  end.

(** [datetime.strptime(s, "%Y-%m-%d")] on ASCII text; [None] is its
    [ValueError] (no match, unconverted data, or a day out of range). *)
Definition strptime (s : string) : option date :=
  '(y, s1) ← match_Y s;
  s2 ← expect "-"%char s1;
  '(m, s3) ← match_m s2;
  s4 ← expect "-"%char s3;
  '(d, s5) ← match_d s4;
  match s5 with
  | EmptyString =>
      let r := mkdate y m d in if valid_date r then Some r else None
  | _ => None
  end.

Definition month_names : list string :=
  ["January"; "February"; "March"; "April"; "May"; "June"; "July";
   "August"; "September"; "October"; "November"; "December"].

(** [date.strftime("%B")], [Series.dt.month_name()] *)
Definition month_name (d : date) : string :=
  nth (Z.to_nat (month d - 1)) month_names "".

End Datetime.

(** ** Cells, rows and data frames *)

Inductive cell : Type :=
  | NaN                      (* NaN, None, NaT *)
  | Num (q : Q)              (* int or float *)
  | Str (s : string)
  | Date (t : Datetime.datetime).

Abbreviation row := (gmap string cell).

Record DataFrame : Type := mkDF {
  columns : list string;
  rows : list row
}.

Module Pandas.

Definition str_eqb (a b : string) : bool := String.eqb a b.

Definition has_column (df : DataFrame) (c : string) : bool :=
  existsb (str_eqb c) (columns df).

(** [row[c]] for a column of the frame; a key the row does not hold reads
    as null, as a cell that was never filled. *)
Definition at_ (r : row) (c : string) : cell :=
  match r !! c with Some v => v | None => NaN end.

Definition notna (v : cell) : bool :=
  match v with NaN => false | _ => true end.

Definition isna (v : cell) : bool := negb (notna v).

Definition num_of (v : cell) : option Q :=
  match v with Num q => Some q | _ => None end.

Definition of_opt (o : option Q) : cell :=
  match o with Some q => Num q | None => NaN end.

(** Element-wise arithmetic: a null operand gives a null result. *)
Definition lift1 (f : Q -> Q) (v : cell) : cell :=
  match v with Num q => Num (f q) | _ => NaN end.

Definition lift2 (f : Q -> Q -> Q) (a b : cell) : cell :=
  match a, b with Num x, Num y => Num (f x y) | _, _ => NaN end.

(** Element-wise comparison with a scalar: false on null. *)
Definition cmp (f : Q -> bool) (v : cell) : bool :=
  match v with Num q => f q | _ => false end.

(** Equality of two cells, as [==] and [drop_duplicates] see it; in
    [drop_duplicates] two nulls are one key. *)
Definition cell_eqb (a b : cell) : bool :=
  match a, b with
  | NaN, NaN => true
  | Num x, Num y => Qeq_bool x y
  | Str s, Str t => str_eqb s t
  | Date x, Date y => Z.eqb (Datetime.timestamp x) (Datetime.timestamp y)
  | _, _ => false
  end.

(** [series.mean()] (skipna): the mean of the non-null numbers, null when
    there is none. *)
Definition mean (vs : list cell) : cell :=
  match omap num_of vs with
  | [] => NaN
  | q :: qs => Num (Num.sum (q :: qs) / inject_Z (Z.of_nat (length (q :: qs))))
  end.

(** [df[cols].mean(axis=1)] at one row. *)
Definition row_mean (cols : list string) (r : row) : cell :=
  mean (List.map (at_ r) cols).

(** [df[name] = f(row)]: a new column goes last, an existing one is
    overwritten in place. *)
Definition set_column (df : DataFrame) (name : string) (f : row -> cell) : DataFrame :=
  {| columns := if has_column df name then columns df else columns df ++ [name];
     rows := List.map (fun r => <[name := f r]> r) (rows df) |}.

(** [df[mask]] *)
Definition select (df : DataFrame) (mask : row -> bool) : DataFrame :=
  {| columns := columns df; rows := List.filter mask (rows df) |}.

(** [df.empty]: no rows or no columns. *)
Definition empty (df : DataFrame) : bool :=
  match rows df, columns df with
  | [], _ => true
  | _, [] => true
  | _, _ => false
  end.

(** [df[c]], a [KeyError] when the frame has no such column. *)
Definition column (df : DataFrame) (c : string) : result (list cell) :=
  if has_column df c then Ok (List.map (fun r => at_ r c) (rows df))
  else Raise (KeyError c).

Definition ascii_lower (a : ascii) : ascii :=
  let n := nat_of_ascii a in
  if ((65 <=? n)%nat && (n <=? 90)%nat)%bool then ascii_of_nat (n + 32) else a.

Definition ascii_upper (a : ascii) : ascii :=
  let n := nat_of_ascii a in
  if ((97 <=? n)%nat && (n <=? 122)%nat)%bool then ascii_of_nat (n - 32) else a.

Fixpoint smap (f : ascii -> ascii) (s : string) : string :=
  match s with
  | EmptyString => EmptyString
  | String a t => String (f a) (smap f t)
  end.

(** [s.lower()], [s.upper()] on ASCII text. *)
Definition lower : string -> string := smap ascii_lower.
Definition upper : string -> string := smap ascii_upper.

(** [series.str.lower() == x], [series.str.upper() == x]: a cell that is
    not a string compares unequal. *)
Definition str_lower_eq (v : cell) (x : string) : bool :=
  match v with Str s => str_eqb (lower s) x | _ => false end.

Definition str_upper_eq (v : cell) (x : string) : bool :=
  match v with Str s => str_eqb (upper s) x | _ => false end.

(** [df.drop_duplicates(subset=[c], keep='first')] *)
Fixpoint drop_duplicates_from (c : string) (seen : list cell) (rs : list row) : list row :=
  match rs with
  | [] => []
  | r :: rs' =>
      if existsb (cell_eqb (at_ r c)) seen
      then drop_duplicates_from c seen rs'
      else r :: drop_duplicates_from c (at_ r c :: seen) rs'
  end.

Definition drop_duplicates (c : string) (df : DataFrame) : result DataFrame :=
  if has_column df c
  then Ok {| columns := columns df; rows := drop_duplicates_from c [] (rows df) |}
  else Raise (KeyError c).

(** The key of [sort_values(by=c, ascending=False)]: larger first, nulls
    last. *)
Definition date_key (v : cell) : option Z :=
  match v with Date t => Some (Datetime.timestamp t) | _ => None end.

Definition key_geb (a b : option Z) : bool :=
  match a, b with
  | _, None => true
  | None, Some _ => false
  | Some x, Some y => (y <=? x)%Z
  end.

(** The distinct non-null values of a column, in order of appearance. *)
Fixpoint distinct (seen : list cell) (vs : list cell) : list cell :=
  match vs with
  | [] => []
  | v :: vs' =>
      if (isna v || existsb (cell_eqb v) seen)%bool
      then distinct seen vs'
      else v :: distinct (v :: seen) vs'
  end.

(** [df.groupby(by)[c].mean()]: one mean per non-null value of [by]. *)
Definition groupby_mean (by_ c : string) (rs : list row) : list (cell * cell) :=
  List.map (fun k =>
    (k, mean (List.map (fun r => at_ r c)
               (List.filter (fun r => cell_eqb (at_ r by_) k) rs))))
    (distinct [] (List.map (fun r => at_ r by_) rs)).

End Pandas.

(** ** [api/v1/routes/team.py] *)

Module Team.

(** A Python float: a finite number, an infinity or NaN. *)
Inductive pyfloat : Type :=
  | FNaN
  | NegInf
  | Fin (q : Q)
  | PosInf.

(** [value > t], [value >= t], [value <= t] for a finite threshold [t]. *)
Definition gt (v : pyfloat) (t : Q) : bool :=
  match v with Fin q => Num.Qltb t q | PosInf => true | _ => false end.
Definition ge (v : pyfloat) (t : Q) : bool :=
  match v with Fin q => Num.Qleb t q | PosInf => true | _ => false end.
Definition le (v : pyfloat) (t : Q) : bool :=
  match v with Fin q => Num.Qleb q t | NegInf => true | _ => false end.

(** [pd.isna(value)] on [None] (here [None]) or a float. *)
Definition isna (value : option pyfloat) : bool :=
  match value with None | Some FNaN => true | _ => false end.

Definition calculate_risk_label (value : option pyfloat) (metric_type : string) : string :=
  match value with
  | None | Some FNaN => "healthy"
  | Some v =>
      if String.eqb metric_type "score" then
        if gt v 75 then "healthy"
        else if gt v 65 then "watch"
        else if ge v 55 then "warning"
        else "critical"
      else
        if le v 20 then "healthy"
        else if le v 35 then "watch"
        else if le v 50 then "warning"
        else "critical"
  end.

End Team.

(** ** Text helpers *)

Module Text.

(** [sub in s] *)
Fixpoint contains (sub s : string) : bool :=
  (String.prefix sub s ||
   match s with
   | EmptyString => false
   | String _ t => contains sub t
   end)%bool.

(** [s.split('_')[0]] *)
Fixpoint before_underscore (s : string) : string :=
  match s with
  | EmptyString => EmptyString
  | String a t => if Ascii.eqb a "_"%char then EmptyString else String a (before_underscore t)
  end.

(** [sep.join(l)] *)
Definition join (sep : string) (l : list string) : string := String.concat sep l.

End Text.

(** ** [utils/quarter.py] *)

Module Quarter.

Definition get_quarter (date_str : string) : result string :=
  match Datetime.strptime date_str with
  | Some date_obj =>
      let month := Datetime.month date_obj in
      if month <=? 3 then Ok "Q1"
      else if month <=? 6 then Ok "Q2"
      else if month <=? 9 then Ok "Q3"
      else Ok "Q4"
  | None => Raise ValueError
  end.

End Quarter.

(** ** [utils/season_detect.py] *)

Module SeasonDetect.
Section Holidays.

(** [holidays.MY(years=year).items()]: the public holidays the library
  lists for a year, in the order of its dictionary. *)
Variable holidays_MY : Z -> list (Datetime.date * string).

(** The value of the parameter [year] when the caller omits it. *)
Definition default_year : Z := 2026.

(** The body of the loop for one holiday. *)
Definition classify_one (input_date : Datetime.date)
  (holiday : Datetime.date * string) : list string :=
let '(holiday_date, holiday_name) := holiday in
let days_diff := Datetime.days_between input_date holiday_date in
if days_diff =? 0 then ["festival: " ++ holiday_name]%string
else if ((-15 <=? days_diff) && (days_diff <? 0))%bool
     then ["pre-festival: " ++ holiday_name]%string
else if ((0 <? days_diff) && (days_diff <=? 15))%bool
     then ["post-festival: " ++ holiday_name]%string
else [].

Definition classify_festival_date (input_date : string) (year : Z)
  : result (list string) :=
match Datetime.strptime input_date with
| None => Raise ValueError
| Some d =>
    let results := flat_map (classify_one d) (holidays_MY year) in
    Ok (match results with [] => ["normal day"] | _ => results end)
end.

End Holidays.
End SeasonDetect.

(** ** [utils/risk_engine_helpers.py] *)

Module RiskEngineHelpers.

(** The transform the three rates share before rounding:
    [((x - 1) / 4 * 100).clip(0, 100)]. *)
Definition pct (x : Q) : Q := Num.clip ((x - 1) / 4 * 100) 0 100.

(** [((x - 1) / 4 * 100).clip(0, 100).round(1)] *)
Definition rate (x : Q) : Q := Num.round 1 (pct x).

Definition qname (q_num : N) : string := ("Q" ++ pretty q_num)%string.

(** [data[name] = values], row by row. *)
Fixpoint assign_rows (name : string) (rs : list row) (values : list cell) : list row :=
  match rs with
  | [] => []
  | r :: rs' =>
      match values with
      | v :: vs' => <[name := v]> r :: assign_rows name rs' vs'
      | [] => <[name := NaN]> r :: assign_rows name rs' []
      end
  end.

Definition assign (df : DataFrame) (name : string) (values : list cell) : DataFrame :=
  {| columns := if Pandas.has_column df name then columns df else columns df ++ [name];
     rows := assign_rows name (rows df) values |}.

(** *** [calculate_row_metrics] *)

Definition dimension_map : list (string * list N) :=
  [ ("Dim_Employee_Engagement", [1; 9]%N);
    ("Dim_Leadership",          [2; 10]%N);
    ("Dim_Enablement",          [3; 11]%N);
    ("Dim_Development",         [4; 12]%N);
    ("Dim_Delight_Customer",    [5; 13]%N);
    ("Dim_Company_Confidence",  [6; 14]%N);
    ("Dim_Culture_Values",      [7; 15]%N);
    ("Dim_ESG",                 [8]%N) ].

(** The predicate of the comprehension in [get_col]. *)
Definition is_question_col (q_num : N) (c : string) : bool :=
  (String.prefix (qname q_num ++ "_")%string c || Pandas.str_eqb c (qname q_num))%bool.

Definition get_col (data : DataFrame) (q_num : N) : option string :=
  head (List.filter (is_question_col q_num) (columns data)).

(** One turn of the loop over [dimension_map]. *)
Definition dimension_step (data : DataFrame) (entry : string * list N) : DataFrame :=
  let '(dim_name, q_nums) := entry in
  match omap (get_col data) q_nums with
  | [] => Pandas.set_column data dim_name (fun _ => NaN)
  | cols =>
      Pandas.set_column data dim_name
        (fun r => Pandas.lift1 (Num.round 2) (Pandas.row_mean cols r))
  end.

Definition row_dimensions (data : DataFrame) : DataFrame :=
  fold_left dimension_step dimension_map data.

Definition row_stress (data : DataFrame) : DataFrame :=
  if (Pandas.has_column data "Dim_Enablement" && Pandas.has_column data "Dim_Culture_Values")%bool
  then
    let data1 := Pandas.set_column data "Stress_Score" (fun r =>
      let support_score :=
        Pandas.lift1 (fun s => s / 2)%Q
          (Pandas.lift2 Qplus (Pandas.at_ r "Dim_Enablement") (Pandas.at_ r "Dim_Culture_Values")) in
      Pandas.lift1 (fun s => Num.round 2 (6 - s))%Q support_score) in
    Pandas.set_column data1 "stress_rate" (fun r =>
      Pandas.lift1 rate (Pandas.at_ r "Stress_Score"))
  else
    Pandas.set_column (Pandas.set_column data "Stress_Score" (fun _ => NaN))
      "stress_rate" (fun _ => NaN).

Definition row_engagement (data : DataFrame) : DataFrame :=
  if Pandas.has_column data "Dim_Employee_Engagement"
  then Pandas.set_column data "engagement_rate" (fun r =>
         Pandas.lift1 rate (Pandas.at_ r "Dim_Employee_Engagement"))
  else Pandas.set_column data "engagement_rate" (fun _ => NaN).

(** [((6 - (q1 + q12) / 2 - 1) / 4 * 100).clip(0, 100).round(1)] *)
Definition attrition_of (q1 q12 : cell) : cell :=
  let retention_driver := Pandas.lift1 (fun s => s / 2)%Q (Pandas.lift2 Qplus q1 q12) in
  let attrition_score := Pandas.lift1 (fun s => 6 - s)%Q retention_driver in
  Pandas.lift1 rate attrition_score.

(** [np.select([rate >= 75, rate >= 50], ['High', 'Medium'], default='Low')] *)
Definition turnover_label (attrition_rate : cell) : cell :=
  if Pandas.cmp (fun x => Num.Qleb 75 x) attrition_rate then Str "High"
  else if Pandas.cmp (fun x => Num.Qleb 50 x) attrition_rate then Str "Medium"
  else Str "Low".

Definition row_attrition (data : DataFrame) : DataFrame :=
  match get_col data 1, get_col data 12 with
  | Some q1_col, Some q12_col =>
      let data1 := Pandas.set_column data "attrition_rate" (fun r =>
        attrition_of (Pandas.at_ r q1_col) (Pandas.at_ r q12_col)) in
      Pandas.set_column data1 "Turnover_Risk_Label" (fun r =>
        turnover_label (Pandas.at_ r "attrition_rate"))
  | _, _ => Pandas.set_column data "attrition_rate" (fun _ => NaN)
  end.

Section Temporal.

Variable holidays_MY : Z -> list (Datetime.date * string).

(** [pd.to_datetime(series, errors='coerce')]: one datetime or [None]
    (NaT) per cell; which texts pandas accepts is its own business. *)
Variable to_datetime : list cell -> list (option Datetime.datetime).

(** [str(d)] can only be parsed by [strptime] when [d] is a string: the
    text of a number or of a timestamp never has the shape
    [YYYY-MM-DD]. *)
Definition safe_quarter (d : cell) : cell :=
  match d with
  | Str s => try_except (q ← Quarter.get_quarter s; Ok (Str q)) (fun _ => NaN)
  | _ => NaN
  end.

Definition safe_season (d : cell) : cell :=
  match d with
  | Str s =>
      try_except
        (res ← SeasonDetect.classify_festival_date holidays_MY s SeasonDetect.default_year;
         Ok (Str (Text.join ", " res)))
        (fun _ => Str "normal day")
  | _ => Str "normal day"
  end.

Definition row_temporal (data : DataFrame) : DataFrame :=
  let date_col :=
    if Pandas.has_column data "submission_date" then "submission_date"
    else "Submission_Date" in
  if Pandas.has_column data date_col then
    let data1 := Pandas.set_column data "quarter" (fun r =>
      let x := Pandas.at_ r date_col in
      if Pandas.notna x then safe_quarter x else NaN) in
    let data2 := Pandas.set_column data1 "event_season" (fun r =>
      let x := Pandas.at_ r date_col in
      if Pandas.notna x then safe_season x else Str "normal day") in
    let dt_series := to_datetime (List.map (fun r => Pandas.at_ r date_col) (rows data2)) in
    let data3 := assign data2 "month"
      (List.map (fun t => match t with
                          | Some dt => Str (Datetime.month_name (Datetime.dt_date dt))
                          | None => NaN end) dt_series) in
    assign data3 "year"
      (List.map (fun t => match t with
                          | Some dt => Num (inject_Z (Datetime.year (Datetime.dt_date dt)))
                          | None => NaN end) dt_series)
  else
    fold_left (fun d c => Pandas.set_column d c (fun _ => NaN))
      ["quarter"; "event_season"; "month"; "year"] data.

Definition calculate_row_metrics (df : DataFrame) : DataFrame :=
  row_temporal (row_attrition (row_engagement (row_stress (row_dimensions df)))).

End Temporal.

(** *** [calculate_survey_metrics] *)

(** [data.rename(columns={old: new}, inplace=True)]; the frame is taken
    not to hold a column [new] already. *)
Definition rename (df : DataFrame) (old new : string) : DataFrame :=
  {| columns := List.map (fun c => if Pandas.str_eqb c old then new else c) (columns df);
     rows := List.map (fun r : row =>
               match r !! old with
               | Some v => <[new := v]> (delete old r)
               | None => r
               end) (rows df) |}.

Definition normalize_employee_id (data : DataFrame) : DataFrame :=
  let data1 :=
    if Pandas.has_column data "mployee_id" then rename data "mployee_id" "employee_id"
    else data in
  if Pandas.has_column data1 "Employee_ID" then rename data1 "Employee_ID" "employee_id"
  else data1.

Definition survey_dimension_map : list (string * list string) :=
  [ ("Dim_Employee_Engagement", ["Q1_Recommend"; "Q9_Proud_Work"]);
    ("Dim_Leadership",          ["Q2_Sup_Feedback"; "Q10_Sup_Informed"]);
    ("Dim_Enablement",          ["Q3_Enablement_Tools"; "Q11_Systems_Process"]);
    ("Dim_Development",         ["Q4_Sup_Career_Interest"; "Q12_Career_Opp"]);
    ("Dim_Delight_Customer",    ["Q5_Quality_Services"; "Q13_Great_Service"]);
    ("Dim_Company_Confidence",  ["Q6_Trust_Top_Mgmt"; "Q14_Future_Success"]);
    ("Dim_Culture_Values",      ["Q7_Diversity_Inclusion"; "Q15_Respect"]);
    ("Dim_ESG",                 ["Q8_ESG_Community"]) ].

(** The predicate of the comprehension that builds [match]:
    [q in c or c.startswith(q.split('_')[0])]. *)
Definition survey_matches (q c : string) : bool :=
  (Text.contains q c || String.prefix (Text.before_underscore q) c)%bool.

Definition survey_match (data : DataFrame) (q : string) : option string :=
  head (List.filter (survey_matches q) (columns data)).

Definition survey_dimension_step (data : DataFrame) (entry : string * list string)
    : DataFrame :=
  let '(dim, queries) := entry in
  match omap (survey_match data) queries with
  | [] => Pandas.set_column data dim (fun _ => Num 0)
  | relevant_cols =>
      Pandas.set_column data dim
        (fun r => Pandas.lift1 (Num.round 2) (Pandas.row_mean relevant_cols r))
  end.

Definition survey_dimensions (data : DataFrame) : DataFrame :=
  fold_left survey_dimension_step survey_dimension_map data.

Definition survey_engagement (data : DataFrame) : DataFrame :=
  if Pandas.has_column data "Dim_Employee_Engagement"
  then Pandas.set_column data "engagement_rate" (fun r =>
         Pandas.lift1 rate (Pandas.at_ r "Dim_Employee_Engagement"))
  else data.

Definition survey_stress (data : DataFrame) : DataFrame :=
  if (Pandas.has_column data "Dim_Enablement" && Pandas.has_column data "Dim_Culture_Values")%bool
  then
    let data1 := Pandas.set_column data "Stress_Score" (fun r =>
      let avg_support :=
        Pandas.lift1 (fun s => s / 2)%Q
          (Pandas.lift2 Qplus (Pandas.at_ r "Dim_Enablement") (Pandas.at_ r "Dim_Culture_Values")) in
      Pandas.lift1 (fun s => 6 - s)%Q avg_support) in
    Pandas.set_column data1 "stress_rate" (fun r =>
      Pandas.lift1 rate (Pandas.at_ r "Stress_Score"))
  else data.

(** [[c for c in data.columns if 'Q1_' in c or c == 'Q1'][0]] *)
Definition survey_question_col (data : DataFrame) (q_num : N) : result string :=
  match List.filter (fun c => (Text.contains (qname q_num ++ "_")%string c
                               || Pandas.str_eqb c (qname q_num))%bool) (columns data) with
  | c :: _ => Ok c
  | [] => Raise IndexError
  end.

Definition survey_attrition (data : DataFrame) : DataFrame :=
  try_except
    (q1 ← survey_question_col data 1;
     q12 ← survey_question_col data 12;
     Ok (Pandas.set_column data "attrition_rate" (fun r =>
           attrition_of (Pandas.at_ r q1) (Pandas.at_ r q12))))
    (fun _ => Pandas.set_column data "attrition_rate" (fun _ => Num 0)).

Definition calculate_survey_metrics (df : DataFrame) : DataFrame :=
  survey_attrition (survey_stress (survey_engagement
    (survey_dimensions (normalize_employee_id df)))).

End RiskEngineHelpers.

(** ** [api/v1/routes/upload.py] *)

Module Upload.

Definition DIMENSION_MAPPING : list (string * list string) :=
  [ ("Dim_Enablement", ["Q3_Enablement_Tools"; "Q11_Systems_Process"; "Q29_Health_Safety"]);
    ("Dim_ESG", ["Q8_ESG_Community"; "Q16_ESG_Environment"]);
    ("Dim_Delight_Customer", ["Q5_Quality_Services"; "Q13_Great_Service";
                              "Q20_Cust_Feedback_Usage"; "Q27_Delight_Cust"]);
    ("Dim_Development", ["Q4_Sup_Career_Interest"; "Q12_Career_Opp"; "Q19_L&D_Access"]);
    ("Dim_Culture_Values", ["Q7_Diversity_Inclusion"; "Q15_Respect"; "Q21_Values_Lived"]);
    ("Dim_Company_Confidence", ["Q6_Trust_Top_Mgmt"; "Q14_Future_Success";
                                "Q24_Sup_Comm_Strategy"]);
    ("Dim_Leadership", ["Q2_Sup_Feedback"; "Q10_Sup_Informed"; "Q18_Sup_Role_Model";
                        "Q30_Sup_Recognize"]);
    ("Dim_Employee_Engagement", ["Q1_Recommend"; "Q9_Proud_Work"; "Q22_Motivated_More";
                                 "Q23_Job_Sat"; "Q25_Excited_Work"; "Q28_Stay_2_Years"]) ].

(** [c.startswith(map_col.split('_')[0] + "_")] *)
Definition matches (map_col c : string) : bool :=
  String.prefix (Text.before_underscore map_col ++ "_")%string c.

Definition find_col (df : DataFrame) (map_col : string) : option string :=
  head (List.filter (matches map_col) (columns df)).

Definition dimension_step (df : DataFrame) (entry : string * list string) : DataFrame :=
  let '(dim_name, cols) := entry in
  match omap (find_col df) cols with
  | [] => Pandas.set_column df dim_name (fun _ => Num 0)
  | available_cols => Pandas.set_column df dim_name (Pandas.row_mean available_cols)
  end.

Definition calculate_dimensions (df : DataFrame) : DataFrame :=
  fold_left dimension_step DIMENSION_MAPPING df.

(** [safe_decimal(value)] with [allow_none=True], on a number or null. *)
Definition safe_decimal (value : cell) : option Q :=
  match value with
  | Num q => Some (Num.quantize2 q)
  | _ => None
  end.

(** [float(x) if x else 0]: [None] and a zero decimal are falsy. *)
Definition or_zero (x : option Q) : Q :=
  match x with
  | Some q => if Qeq_bool q 0 then 0%Q else q
  | None => 0%Q
  end.

Definition calculate_overall_risk (engagement attrition stress : option Q) : string :=
  let e := or_zero engagement in
  let a := or_zero attrition in
  let s := or_zero stress in
  if (Num.Qltb e 55 || Num.Qltb 50 s || Num.Qltb 50 a)%bool then "critical"
  else if (Num.Qltb e 65 || Num.Qltb 35 s || Num.Qltb 35 a)%bool then "warning"
  else "healthy".

(** Truth value of a cell read from the store: [None], the empty string
    and zero are falsy. *)
Definition truthy (v : cell) : bool :=
  match v with
  | NaN => false
  | Str s => negb (Pandas.str_eqb s "")
  | Num q => negb (Qeq_bool q 0)
  | Date _ => true
  end.

(** [{d.get('department_name'): d.get('department_id')
      for d in existing_depts if d.get('department_name')}] *)
Definition dept_map (existing_depts : list row) : gmap string cell :=
  fold_left (fun (m : gmap string cell) (d : row) =>
    match Pandas.at_ d "department_name" with
    | Str name => if Pandas.str_eqb name "" then m
                  else <[name := Pandas.at_ d "department_id"]> m
    | _ => m
    end) existing_depts ∅.

Definition agg_columns : list string :=
  ["engagement_rate"; "attrition_rate"; "burnout_rate"] ++ List.map fst DIMENSION_MAPPING.

(** [df.groupby(dept_col).agg(agg_dict).reset_index()]: one row per
    non-null department with the mean of every aggregated column; a
    [KeyError] when the frame lacks one of them.  The groups come in order
    of first appearance here, pandas sorts them by key. *)
Definition dept_stats (df : DataFrame) (dept_col : string) : result (list row) :=
  match List.filter (fun c => negb (Pandas.has_column df c)) agg_columns with
  | missing :: _ => Raise (KeyError missing)
  | [] =>
      Ok (List.map (fun k =>
            let group := List.filter (fun r => Pandas.cell_eqb (Pandas.at_ r dept_col) k) (rows df) in
            fold_left (fun (acc : row) c =>
                         <[c := Pandas.mean (List.map (fun r => Pandas.at_ r c) group)]> acc)
                      agg_columns (<[dept_col := k]> (∅ : row)))
          (Pandas.distinct [] (List.map (fun r => Pandas.at_ r dept_col) (rows df))))
  end.

(** The attribute values of one [update_item] call. *)
Definition department_update (timestamp : string) (stats : row) : gmap string cell :=
  let eng := safe_decimal (Pandas.at_ stats "engagement_rate") in
  let att := safe_decimal (Pandas.at_ stats "attrition_rate") in
  let stress := safe_decimal (Pandas.at_ stats "burnout_rate") in
  let overall_risk := calculate_overall_risk eng att stress in
  let updates : gmap string cell :=
    <["metrics_updated_at" := Str timestamp]>
    (<["overall_risk" := Str overall_risk]>
    (<["stress_rate" := Pandas.of_opt stress]>
    (<["attrition_rate" := Pandas.of_opt att]>
    (<["engagement_rate" := Pandas.of_opt eng]> ∅)))) in
  fold_left (fun (u : gmap string cell) dim =>
               <[dim := Pandas.of_opt (safe_decimal (Pandas.at_ stats dim))]> u)
            (List.map fst DIMENSION_MAPPING) updates.

(** [update_departments_from_survey]: the [update_item] calls it issues, as
    pairs of the key [department_id] and the attributes set.  A call the
    store rejects is logged and skipped by the code, so the records
    written are among these. *)
Definition update_departments_from_survey (timestamp : string)
    (existing_depts : list row) (df : DataFrame)
    : result (list (cell * gmap string cell)) :=
  let dept_col := if Pandas.has_column df "department" then "department" else "Department" in
  if negb (Pandas.has_column df dept_col) then Ok []
  else
    stats ← dept_stats df dept_col;
    let dm := dept_map existing_depts in
    Ok (omap (fun r : row =>
                let dept_id :=
                  match Pandas.at_ r dept_col with
                  | Str dept_name => match dm !! dept_name with Some i => i | None => NaN end
                  | _ => NaN
                  end in
                if truthy dept_id then Some (dept_id, department_update timestamp r)
                else None) (stats : list row)).

End Upload.

(** ** [utils/risk_engine.py] *)

Module RiskEngine.

(** A [pd.Series] taken from a frame: the cells of a column, or the empty
    series when none of the candidate columns exists. *)
Definition series : Type := option (list cell).

(** The helper [get_col(df, col_names)] of [get_risk_summary_by_department]. *)
Fixpoint get_col (df : DataFrame) (col_names : list string) : series :=
  match col_names with
  | [] => None
  | col :: rest =>
      if Pandas.has_column df col
      then Some (List.map (fun r => Pandas.at_ r col) (rows df))
      else get_col df rest
  end.

Definition series_len (s : series) : nat :=
  match s with Some l => length l | None => O end.

Definition count (f : cell -> bool) (l : list cell) : Q :=
  inject_Z (Z.of_nat (length (List.filter f l))).

Definition le2 (v : cell) : bool := Pandas.cmp (fun x => Num.Qleb x 2) v.

(** Rows where both series are at most 2, over the rows they share, as a
    percentage; NaN (here [NaN]) when a series is empty. *)
Definition both_low_rate (a b : series) : cell :=
  match a, b with
  | Some la, Some lb =>
      match la with
      | [] => NaN
      | _ =>
          let both := List.filter (fun p : cell * cell => (le2 (fst p) && le2 (snd p))%bool)
                        (combine la lb) in
          Num (inject_Z (Z.of_nat (length both)) / inject_Z (Z.of_nat (length la)) * 100)
      end
  | _, _ => NaN
  end.

Definition calculate_burnout_rate (work_life_balance job_satisfaction : series) : cell :=
  both_low_rate work_life_balance job_satisfaction.

Definition calculate_turnover_risk (enps_scores growth_opp : series) : cell :=
  both_low_rate enps_scores growth_opp.

Definition calculate_burnout_score (work_life_balance job_satisfaction : series) : cell :=
  match work_life_balance with
  | None | Some [] => NaN
  | Some lw =>
      match job_satisfaction with
      | None => NaN
      | Some lj =>
          let wellness_score :=
            List.map (fun p : cell * cell =>
                        Pandas.lift1 (fun s => s / 2)%Q (Pandas.lift2 Qplus (fst p) (snd p)))
                     (combine lw lj) in
          Pandas.lift1 (fun m => 6 - m)%Q (Pandas.mean wellness_score)
      end
  end.

Definition calculate_enps_score (scores : series) : cell :=
  match scores with
  | None | Some [] => NaN
  | Some l =>
      let promoters := count (Pandas.cmp (fun x => Qeq_bool x 5)) l in
      let detractors := count (Pandas.cmp (fun x => Num.Qleb x 3)) l in
      Num ((promoters - detractors) / inject_Z (Z.of_nat (length l)) * 100)
  end.

(** [round(x, 2) if pd.notna(x) else 0] *)
Definition round2_or_zero (v : cell) : Q :=
  match v with Num q => Num.round 2 q | _ => 0%Q end.

Record RiskSummary : Type := mkRiskSummary {
  burnout_rate : Q;
  attrition_rate : Q;
  engagement_score : Q;
  employee_count : nat;
  burnout_score : option Q;      (* absent from the dictionary of the empty cases *)
  enps : option Q
}.

Definition empty_summary : RiskSummary :=
  mkRiskSummary 0 0 0 0 None None.

(** Step 6: the metrics of the retained rows. *)
Definition summary_of (latest_df : DataFrame) : RiskSummary :=
  let engagement := get_col latest_df ["Overall_Engagement"] in
  let wlb := get_col latest_df ["Q29_Health_Safety"; "Q2_Work_Life_Balance"] in
  let job_sat := get_col latest_df ["Q23_Job_Sat"; "Q1_Job_Satisfaction"] in
  let enps := get_col latest_df ["Q1_Recommend"; "Q5_eNPS"] in
  let growth := get_col latest_df ["Q12_Career_Opp"; "Q4_Growth_Opportunities"] in
  {| burnout_rate := round2_or_zero (calculate_burnout_rate wlb job_sat);
     attrition_rate := round2_or_zero (calculate_turnover_risk enps growth);
     engagement_score :=
       match engagement with
       | Some (c :: l) => round2_or_zero (Pandas.mean (c :: l))
       | _ => 0%Q
       end;
     employee_count := length (rows latest_df);
     burnout_score := Some (round2_or_zero (calculate_burnout_score wlb job_sat));
     enps := Some (round2_or_zero (calculate_enps_score enps)) |}.

Section Sorting.

(** [rows.sort_values(by, ascending=False)]: pandas sorts with an
    unstable quicksort, so the order among equal keys is left open. *)
Variable sort_values_desc : string -> list row -> list row.

(** Step 5 of [get_risk_summary_by_department]. *)
Definition latest_submissions (merged_df : DataFrame) : DataFrame :=
  if (Pandas.has_column merged_df "employee_id"
      && Pandas.has_column merged_df "Submission_Date")%bool
  then {| columns := columns merged_df;
          rows := Pandas.drop_duplicates_from "employee_id" []
                    (sort_values_desc "Submission_Date" (rows merged_df)) |}
  else merged_df.

(** [merged_df[merged_df[c] == v]] and the like: a [KeyError] without
    the column. *)
Definition where_ (df : DataFrame) (c : string) (test : cell -> bool) : result DataFrame :=
  if Pandas.has_column df c
  then Ok (Pandas.select df (fun r => test (Pandas.at_ r c)))
  else Raise (KeyError c).

Definition truthy_str (s : option string) : option string :=
  match s with
  | Some t => if Pandas.str_eqb t "" then None else Some t
  | None => None
  end.

(** [get_risk_summary_by_department] from its step 4 on: [merged_df] is
    the preprocessed survey frame joined with the positions. *)
Definition get_risk_summary_by_department (merged_df : DataFrame)
    (department : string) (position quarter : option string) (year : option Z)
    : result RiskSummary :=
  df1 ← match year with
         | Some y => if y =? 0 then Ok merged_df
                     else where_ merged_df "Year"
                            (fun v => Pandas.cell_eqb v (Num (inject_Z y)))
         | None => Ok merged_df
         end;
  df2 ← match truthy_str quarter with
         | Some q => where_ df1 "Quarter" (fun v => Pandas.cell_eqb v (Str q))
         | None => Ok df1
         end;
  (* [astype(str)] turns a cell that is not text into its rendering,
     which is taken not to be the name of a department *)
  df3 ← (if Pandas.str_eqb department "" then Ok df2
         else where_ df2 "Department"
                (fun v => Pandas.str_lower_eq v (Pandas.lower department)));
  let df4 :=
    match truthy_str position with
    | Some p =>
        if Pandas.has_column df3 "position"
        then Pandas.select df3 (fun r =>
               Pandas.str_lower_eq (Pandas.at_ r "position") (Pandas.lower p))
        else df3
    | None => df3
    end in
  if Pandas.empty df4 then Ok empty_summary
  else Ok (summary_of (latest_submissions df4)).

End Sorting.

End RiskEngine.

(** ** [api/v1/routes/metrics.py] *)

Module Metrics.

(** *** [get_metrics_summary] *)

Definition day_micro : Z := 86400000000.

(** [get_cutoff_date(range_type)], as a timestamp. *)
Definition get_cutoff_date (now : Datetime.datetime) (range_type : string) : Z :=
  let days :=
    if Pandas.str_eqb range_type "week" then 7
    else if Pandas.str_eqb range_type "month" then 30
    else if Pandas.str_eqb range_type "quarter" then 90
    else if Pandas.str_eqb range_type "year" then 365
    else 30 in
  Datetime.timestamp now - days * day_micro.

Record MetricsData : Type := mkMetricsData {
  totalEmployees : nat;
  teamsAtRisk : nat;
  avgEngagement : Q;
  engagementTrend : Q;
  burnoutAlerts : nat;
  attritionRiskCount : nat;
  feedbackResponseRate : Q
}.

Inductive SyncStatus : Type :=
  | NoDataAvailable
  | NoDataForRange
  | ReadOnly (raw after_date : nat) (dateRange : string) (final : nat).

Definition zero_data : MetricsData := mkMetricsData 0 0 0 0 0 0 0.

Definition count_above (c : string) (t : Q) (df : DataFrame) : nat :=
  length (List.filter (fun r => Pandas.cmp (fun x => Num.Qltb t x) (Pandas.at_ r c)) (rows df)).

(** Steps 6 and 7: the figures of the snapshot; [total_possible] is the
    number of items of the Employees table. *)
Definition summarize (snapshot_df : DataFrame) (total_possible : nat) : MetricsData :=
  let avg_eng :=
    if Pandas.has_column snapshot_df "engagement_rate" then
      match Pandas.mean (List.map (fun r => Pandas.at_ r "engagement_rate") (rows snapshot_df)) with
      | Num q => q
      | _ => 0%Q
      end
    else 0%Q in
  let burnout_count :=
    if Pandas.has_column snapshot_df "stress_rate"
    then count_above "stress_rate" 60 snapshot_df else O in
  let attrition_count :=
    if Pandas.has_column snapshot_df "attrition_rate"
    then count_above "attrition_rate" 60 snapshot_df else O in
  let dept_col :=
    if Pandas.has_column snapshot_df "department" then "department" else "Department" in
  let teams_risk :=
    if (Pandas.has_column snapshot_df dept_col
        && Pandas.has_column snapshot_df "engagement_rate")%bool
    then length (List.filter (fun kv : cell * cell =>
                                Pandas.cmp (fun x => Num.Qltb x 65) (snd kv))
                             (Pandas.groupby_mean dept_col "engagement_rate"
                                (rows snapshot_df)))
    else O in
  let feedback_response_rate :=
    match total_possible with
    | O => 0%Q
    | _ => Num.round 1 (inject_Z (Z.of_nat (length (rows snapshot_df)))
                        / inject_Z (Z.of_nat total_possible) * 100)
    end in
  {| totalEmployees := length (rows snapshot_df);
     teamsAtRisk := teams_risk;
     avgEngagement := Num.round 1 avg_eng;
     engagementTrend := 0;
     burnoutAlerts := burnout_count;
     attritionRiskCount := attrition_count;
     feedbackResponseRate := feedback_response_rate |}.

Section Libraries.

(** [pd.to_datetime(series, errors='coerce')] and
    [rows.sort_values(by, ascending=False)]. *)
Variable to_datetime : list cell -> list (option Datetime.datetime).
Variable sort_values_desc : string -> list row -> list row.

(** Step 5, the snapshot:
    [sort_values(by=date_col, ascending=False)
       .drop_duplicates(subset=['employee_id'], keep='first')]. *)
Definition snapshot (date_col : string) (metrics_df : DataFrame) : result DataFrame :=
  Pandas.drop_duplicates "employee_id"
    {| columns := columns metrics_df;
       rows := sort_values_desc date_col (rows metrics_df) |}.

(** Steps 2 to 4: the rows with a date on or after the cutoff, of the
    department asked for. *)
Definition filtered (raw_df : DataFrame) (now : Datetime.datetime)
    (dateRange : string) (department : option string)
    : result (string * DataFrame * DataFrame) :=
  let date_col :=
    if Pandas.has_column raw_df "submission_date" then "submission_date"
    else "Submission_Date" in
  series ← Pandas.column raw_df date_col;
  let dated := RiskEngineHelpers.assign raw_df date_col
                 (List.map (fun t => match t with Some dt => Date dt | None => NaN end)
                           (to_datetime series)) in
  let raw_df1 := Pandas.select dated (fun r => Pandas.notna (Pandas.at_ r date_col)) in
  let cutoff_date := get_cutoff_date now dateRange in
  let filtered_df := Pandas.select raw_df1 (fun r =>
    match Pandas.at_ r date_col with
    | Date t => cutoff_date <=? Datetime.timestamp t
    | _ => false
    end) in
  let filtered_df1 :=
    match RiskEngine.truthy_str department with
    | Some d =>
        if Pandas.has_column filtered_df "department"
        then Pandas.select filtered_df (fun r =>
               Pandas.str_lower_eq (Pandas.at_ r "department") (Pandas.lower d))
        else if Pandas.has_column filtered_df "Department"
        then Pandas.select filtered_df (fun r =>
               Pandas.str_lower_eq (Pandas.at_ r "Department") (Pandas.lower d))
        else filtered_df
    | None => filtered_df
    end in
  Ok (date_col, raw_df1, filtered_df1).

(** [get_metrics_summary]; [Raise] is its HTTP 500. *)
Definition get_metrics_summary (raw_df : DataFrame) (total_possible : nat)
    (now : Datetime.datetime) (dateRange : string) (department : option string)
    : result (MetricsData * SyncStatus) :=
  if Pandas.empty raw_df then Ok (zero_data, NoDataAvailable)
  else
    '(date_col, raw_df1, filtered_df) ← filtered raw_df now dateRange department;
    if Pandas.empty filtered_df then Ok (zero_data, NoDataForRange)
    else
      let metrics_df := RiskEngineHelpers.calculate_survey_metrics filtered_df in
      snapshot_df ← snapshot date_col metrics_df;
      Ok (summarize snapshot_df total_possible,
          ReadOnly (length (rows raw_df1)) (length (rows filtered_df)) dateRange
                   (length (rows snapshot_df))).

End Libraries.

(** *** [filter_metrics] and [aggregate_dataframe] *)

(** A value of a response dictionary. *)
Inductive pyval : Type :=
  | PyNone
  | PyNaN
  | PyInt (z : Z)
  | PyFloat (q : Q)
  | PyStr (s : string)
  | PyDate (t : Datetime.datetime).

Definition sum_columns : list string :=
  ["Response_Count"; "Total_Employees"; "eNPS_Promoters"; "eNPS_Passives"; "eNPS_Detractors"].

Definition mean_columns : list string :=
  ["Response_Rate"; "Job_Satisfaction"; "Work_Life_Balance"; "Manager_Support";
   "Growth_Opportunities"; "Overall_Engagement"; "eNPS"; "Avg_eNPS_Score";
   "Burnout_Score"; "Burnout_Rate"; "Turnover_Risk"; "Avg_Workload"; "Avg_Sentiment"].

Definition mem (c : string) (l : list string) : bool := existsb (Pandas.str_eqb c) l.

(** [int(x)]: towards zero. *)
Definition py_int (q : Q) : Z :=
  if Num.Qltb q 0 then - Qfloor (- q) else Qfloor q.

Definition aggregate_dataframe (df : DataFrame) (department_name : string)
    (year : Z) (quarter : string) : gmap string pyval :=
  let aggregated :=
    fold_left (fun (acc : gmap string pyval) col =>
      let values := List.map (fun r => Pandas.at_ r col) (rows df) in
      if mem col sum_columns then
        <[col := PyInt (py_int (Num.sum (omap Pandas.num_of values)))]> acc
      else if mem col mean_columns then
        <[col := match Pandas.mean values with Num m => PyFloat m | _ => PyNone end]> acc
      else <[col := PyStr "All"]> acc) (columns df) ∅ in
  <["Year" := PyInt year]>
    (<["Quarter" := PyStr quarter]>
       (<["Department" := PyStr department_name]> aggregated)).

Definition quarters : list string := ["Q1"; "Q2"; "Q3"; "Q4"].

(** The entry of a quarter without rows. *)
Definition empty_quarter (department : option string) (q : string) (year : Z)
    : gmap string pyval :=
  <["Overall_Engagement" := PyNone]>
    (<["eNPS" := PyNone]>
       (<["Turnover_Risk" := PyNone]>
          (<["Burnout_Rate" := PyNone]>
             (<["Response_Count" := PyInt 0]>
                (<["Year" := PyInt year]>
                   (<["Quarter" := PyStr q]>
                      (<["Department" :=
                           PyStr (match RiskEngine.truthy_str department with
                                  | Some d => d | None => "All" end)]> ∅))))))).

Definition of_cell (v : cell) : pyval :=
  match v with
  | NaN => PyNaN
  | Num q => PyFloat q
  | Str s => PyStr s
  | Date t => PyDate t
  end.

(** [df.to_dict(orient="records")] *)
Definition to_records (df : DataFrame) : list (gmap string pyval) :=
  List.map (fun r : row =>
    fold_left (fun (acc : gmap string pyval) c => <[c := of_cell (Pandas.at_ r c)]> acc)
              (columns df) ∅) (rows df).

Definition by_department (df : DataFrame) (department : string) : result DataFrame :=
  RiskEngine.where_ df "Department"
    (fun v => Pandas.str_lower_eq v (Pandas.lower department)).

Definition by_quarter (df : DataFrame) (q : string) : result DataFrame :=
  RiskEngine.where_ df "Quarter" (fun v => Pandas.str_upper_eq v (Pandas.upper q)).

(** [filter_metrics]; [current_year] is [datetime.now().year]. *)
Definition filter_metrics (current_year : Z) (df : DataFrame)
    (department quarter : option string) (year : option Z) (group_by : option string)
    : result (list (gmap string pyval)) :=
  let year := match year with Some y => y | None => current_year end in
  let df := if Pandas.has_column df "Year"
            then Pandas.select df (fun r =>
                   Pandas.cell_eqb (Pandas.at_ r "Year") (Num (inject_Z year)))
            else df in
  let department := RiskEngine.truthy_str department in
  let quarter := RiskEngine.truthy_str quarter in
  match group_by with
  | Some "quarter" =>
      df ← match department with
            | Some d => by_department df d
            | None => Ok df
            end;
      mapM (fun q =>
              q_df ← by_quarter df q;
              if Pandas.empty q_df then Ok (empty_quarter department q year)
              else Ok (aggregate_dataframe q_df
                         (match department with Some d => d | None => "All" end)
                         year q))
           quarters
  | _ =>
      df ← match quarter with
            | Some q => by_quarter df q
            | None => Ok df
            end;
      match department with
      | Some d =>
          df ← by_department df d;
          match quarter with
          | Some _ => Ok (to_records df)
          | None => Ok [aggregate_dataframe df d year "All"]
          end
      | None =>
          match quarter with
          | Some q => Ok [aggregate_dataframe df "All" year q]
          | None => Ok [aggregate_dataframe df "All" year "All"]
          end
      end
  end.

End Metrics.

(** ** [api/v1/routes/insight.py] *)

Module Insight.

(** A Python [str]: its code points. *)
Abbreviation pystr := (list N).

Definition of_ascii (s : string) : pystr :=
  List.map N_of_ascii (list_ascii_of_string s).

Definition between (lo hi c : N) : bool := ((lo <=? c) && (c <=? hi))%N%bool.

(** [str.isspace] on one character, which is also [\s] of [re]. *)
Definition isspace (c : N) : bool :=
  (between 9 13 c || between 28 32 c || (c =? 133)%N || (c =? 160)%N || (c =? 5760)%N
   || between 8192 8202 c || (c =? 8232)%N || (c =? 8233)%N || (c =? 8239)%N
   || (c =? 8287)%N || (c =? 12288)%N)%bool.

Fixpoint lstrip (s : pystr) : pystr :=
  match s with
  | c :: r => if isspace c then lstrip r else s
  | [] => []
  end.

Definition rstrip (s : pystr) : pystr := rev (lstrip (rev s)).

(** [s.strip()] *)
Definition strip (s : pystr) : pystr := rstrip (lstrip s).

Fixpoint startswith (p s : pystr) : bool :=
  match p, s with
  | [], _ => true
  | a :: p', b :: s' => ((a =? b)%N && startswith p' s')%bool
  | _ :: _, [] => false
  end.

(** [sub in s] *)
Fixpoint contains (sub s : pystr) : bool :=
  (startswith sub s || match s with [] => false | _ :: r => contains sub r end)%bool.

Definition fence : pystr := [96; 96; 96]%N.

Definition isalpha_ascii (c : N) : bool := (between 65 90 c || between 97 122 c)%bool.

Fixpoint drop_while (f : N -> bool) (s : pystr) : pystr :=
  match s with
  | c :: r => if f c then drop_while f r else s
  | [] => []
  end.

(** [re.sub(r"^```[a-zA-Z]*\s*", "", s)]: the opening fence, the language
    tag and the white space after it. *)
Definition sub_opening_fence (s : pystr) : pystr :=
  if startswith fence s
  then drop_while isspace (drop_while isalpha_ascii (skipn 3 s))
  else s.

(** [re.sub(r"\s*```$", "", s)] on a stripped text, where [$] can only be
    the end: the closing fence and the white space before it. *)
Definition sub_closing_fence (s : pystr) : pystr :=
  if startswith fence (rev s)
  then rev (drop_while isspace (skipn 3 (rev s)))
  else s.

(** [s.find(c)] and [s.rfind(c)], [None] for -1. *)
Fixpoint find (c : N) (s : pystr) : option nat :=
  match s with
  | [] => None
  | a :: r => if (a =? c)%N then Some O else S <$> find c r
  end.

Definition rfind (c : N) (s : pystr) : option nat :=
  (fun i => (length s - 1 - i)%nat) <$> find c (rev s).

(** [s[start : stop]] for indices within the text. *)
Definition slice (s : pystr) (start stop : nat) : pystr :=
  firstn (stop - start) (skipn start s).

(** [re.sub(r"[\x00-\x1F\x7F]", "", s)] *)
Definition strip_control (s : pystr) : pystr :=
  List.filter (fun c => negb ((c <=? 31)%N || (c =? 127)%N)) s.

(** [s.replace(old, new)] for a non-empty [old]: the occurrences from the
    left, without overlap; [skip] counts the characters of an occurrence
    still to pass over. *)
Fixpoint replace_from (skip : nat) (old new s : pystr) : pystr :=
  match s with
  | [] => []
  | c :: r =>
      match skip with
      | S k => replace_from k old new r
      | O => if startswith old s
             then new ++ replace_from (length old - 1) old new r
             else c :: replace_from O old new r
      end
  end.

Definition replace (old new s : pystr) : pystr := replace_from O old new s.

(** The first argument of the call [replace] of line 141.  The line is
    written with ASCII quotes only: [raw_text.replace(], three double
    quotes, then [, '], a double quote, [').replace(], three double quotes
    again, and [, '], a double quote, [')].  Python reads the three quotes
    as the delimiters of a triple-quoted string, so the line is one call of
    [replace] whose first argument is the text between them, comma, space,
    single quote, double quote, single quote, [).replace(], and whose second
    argument is one double quote. *)
Definition replaced_text : pystr :=
  of_ascii ", '" ++ [34%N] ++ of_ascii "').replace(".

(** *** [json.loads] *)

#[local] Unset Elimination Schemes.
Inductive json : Type :=
  | JNull
  | JBool (b : bool)
  | JInt (z : Z)
  | JFloat (text : pystr)
  | JStr (s : pystr)
  | JList (l : list json)
  | JDict (items : list (pystr * json)).
#[local] Set Elimination Schemes.

Fixpoint str_eqb (a b : pystr) : bool :=
  match a, b with
  | [], [] => true
  | x :: a', y :: b' => ((x =? y)%N && str_eqb a' b')%bool
  | _, _ => false
  end.

(** [d[k] = v] on a dictionary kept in insertion order. *)
Fixpoint dict_set (d : list (pystr * json)) (k : pystr) (v : json) : list (pystr * json) :=
  match d with
  | [] => [(k, v)]
  | (k', v') :: d' => if str_eqb k' k then (k', v) :: d' else (k', v') :: dict_set d' k v
  end.

(** [dict.get(k)] *)
Fixpoint dict_get (d : list (pystr * json)) (k : pystr) : option json :=
  match d with
  | [] => None
  | (k', v) :: d' => if str_eqb k' k then Some v else dict_get d' k
  end.

Definition is_ws (c : N) : bool :=
  ((c =? 32) || (c =? 9) || (c =? 10) || (c =? 13))%N%bool.

Definition skip_ws (s : pystr) : pystr := drop_while is_ws s.

Definition is_digit (c : N) : bool := between 48 57 c.

Definition hex_value (c : N) : option N :=
  if between 48 57 c then Some (c - 48)%N
  else if between 97 102 c then Some (c - 87)%N
  else if between 65 70 c then Some (c - 55)%N
  else None.

(** Four hexadecimal digits after [\u]. *)
Definition hex4 (s : pystr) : option (N * pystr) :=
  match s with
  | a :: b :: c :: d :: r =>
      match hex_value a, hex_value b, hex_value c, hex_value d with
      | Some w, Some x, Some y, Some z => Some ((((w * 16 + x) * 16 + y) * 16 + z)%N, r)
      | _, _, _, _ => None
      end
  | _ => None
  end.

(** [scanstring], strict: the text after an opening quote up to the
    closing one, with its escapes decoded. *)
Fixpoint scanstring (fuel : nat) (s acc : pystr) : result (pystr * pystr) :=
  match fuel with
  | O => Raise JSONDecodeError
  | S f =>
      match s with
      | [] => Raise JSONDecodeError
      | c :: r =>
          if (c =? 34)%N then Ok (rev acc, r)
          else if (c =? 92)%N then
            match r with
            | [] => Raise JSONDecodeError
            | e :: r' =>
                if (e =? 117)%N then
                  match hex4 r' with
                  | None => Raise JSONDecodeError
                  | Some (hi, r'') =>
                      let pair :=
                        if between 55296 56319 hi then
                          match r'' with
                          | 92%N :: 117%N :: r3 =>
                              match hex4 r3 with
                              | Some (lo, r4) =>
                                  if between 56320 57343 lo
                                  then Some ((65536 + (hi - 55296) * 1024 + (lo - 56320))%N, r4)
                                  else None
                              | None => None
                              end
                          | _ => None
                          end
                        else None in
                      match pair with
                      | Some (cp, r4) => scanstring f r4 (cp :: acc)
                      | None => scanstring f r'' (hi :: acc)
                      end
                  end
                else
                  let decoded :=
                    if (e =? 34)%N then Some 34%N
                    else if (e =? 92)%N then Some 92%N
                    else if (e =? 47)%N then Some 47%N
                    else if (e =? 98)%N then Some 8%N
                    else if (e =? 102)%N then Some 12%N
                    else if (e =? 110)%N then Some 10%N
                    else if (e =? 114)%N then Some 13%N
                    else if (e =? 116)%N then Some 9%N
                    else None in
                  match decoded with
                  | Some d => scanstring f r' (d :: acc)
                  | None => Raise JSONDecodeError
                  end
            end
          else if (c <=? 31)%N then Raise JSONDecodeError
          else scanstring f r (c :: acc)
      end
  end.

Fixpoint take_digits (s : pystr) : pystr * pystr :=
  match s with
  | c :: r => if is_digit c then let '(d, t) := take_digits r in (c :: d, t) else ([], s)
  | [] => ([], [])
  end.

Definition digits_value (d : pystr) : Z :=
  fold_left (fun acc c => 10 * acc + Z.of_N (c - 48)) d 0.

(** The number pattern of the decoder at the head of the text: an
    optional minus, then 0 or a digit from 1 to 9 and more digits; then,
    optionally, a dot and digits; then, optionally, e or E, a sign and
    digits.  An integer without fraction and exponent is an [int]. *)
Definition match_number (s : pystr) : option (json * pystr) :=
  let '(neg, s1) := match s with 45%N :: r => (true, r) | _ => (false, s) end in
  match s1 with
  | [] => None
  | c :: r =>
      if negb (is_digit c) then None
      else
        let '(int_digits, s2) :=
          if (c =? 48)%N then ([c], r) else take_digits s1 in
        let '(frac, s3) :=
          match s2 with
          | 46%N :: r2 =>
              match take_digits r2 with
              | ([], _) => ([], s2)
              | (d, t) => (46%N :: d, t)
              end
          | _ => ([], s2)
          end in
        let '(expo, s4) :=
          match s3 with
          | e :: r3 =>
              if ((e =? 101) || (e =? 69))%N%bool then
                let '(sign, r4) :=
                  match r3 with
                  | g :: r5 => if ((g =? 43) || (g =? 45))%N%bool then ([g], r5) else ([], r3)
                  | [] => ([], r3)
                  end in
                match take_digits r4 with
                | ([], _) => ([], s3)
                | (d, t) => (e :: sign ++ d, t)
                end
              else ([], s3)
          | [] => ([], s3)
          end in
        match frac, expo with
        | [], [] =>
            Some (JInt (if neg then - digits_value int_digits else digits_value int_digits), s4)
        | _, _ =>
            Some (JFloat ((if neg then [45%N] else []) ++ int_digits ++ frac ++ expo), s4)
        end
  end.

(** A literal at the head of the text. *)
Definition literal (word : string) (v : json) (s : pystr) : option (json * pystr) :=
  let w := of_ascii word in
  if startswith w s then Some (v, skipn (length w) s) else None.

(** [scan_once], [JSONObject] and [JSONArray] of the decoder; the fuel
    stands for the depth Python allows, a [RecursionError] beyond it. *)
Fixpoint scan_once (fuel : nat) (s : pystr) : result (json * pystr) :=
  match fuel with
  | O => Raise RecursionError
  | S f =>
      match s with
      | [] => Raise JSONDecodeError
      | c :: r =>
          if (c =? 34)%N then
            '(str, rest) ← scanstring (length r) r []; Ok (JStr str, rest)
          else if (c =? 123)%N then
            let r1 := skip_ws r in
            match r1 with
            | 125%N :: rest => Ok (JDict [], rest)
            | 34%N :: rest => object_items f rest []
            | _ => Raise JSONDecodeError
            end
          else if (c =? 91)%N then
            let r1 := skip_ws r in
            match r1 with
            | 93%N :: rest => Ok (JList [], rest)
            | _ => array_items f r1 []
            end
          else
            let found :=
              if (c =? 110)%N then literal "null" JNull s
              else if (c =? 116)%N then literal "true" (JBool true) s
              else if (c =? 102)%N then literal "false" (JBool false) s
              else match match_number s with
                   | Some n => Some n
                   | None =>
                       if (c =? 78)%N then literal "NaN" (JFloat (of_ascii "NaN")) s
                       else if (c =? 73)%N
                            then literal "Infinity" (JFloat (of_ascii "Infinity")) s
                       else if (c =? 45)%N
                            then literal "-Infinity" (JFloat (of_ascii "-Infinity")) s
                       else None
                   end in
            match found with
            | Some v => Ok v
            | None => Raise JSONDecodeError
            end
      end
  end
(** after the opening quote of a key *)
with object_items (fuel : nat) (s : pystr) (pairs : list (pystr * json))
    : result (json * pystr) :=
  match fuel with
  | O => Raise RecursionError
  | S f =>
      '(key, s1) ← scanstring (length s) s [];
      match skip_ws s1 with
      | 58%N :: s2 =>
          '(value, s3) ← scan_once f (skip_ws s2);
          let pairs' := dict_set pairs key value in
          match skip_ws s3 with
          | 125%N :: rest => Ok (JDict pairs', rest)
          | 44%N :: s4 =>
              match skip_ws s4 with
              | 34%N :: s5 => object_items f s5 pairs'
              | _ => Raise JSONDecodeError
              end
          | _ => Raise JSONDecodeError
          end
      | _ => Raise JSONDecodeError
      end
  end
(** at the start of an element *)
with array_items (fuel : nat) (s : pystr) (values : list json) : result (json * pystr) :=
  match fuel with
  | O => Raise RecursionError
  | S f =>
      '(value, s1) ← scan_once f s;
      match skip_ws s1 with
      | 93%N :: rest => Ok (JList (rev (value :: values)), rest)
      | 44%N :: s2 => array_items f (skip_ws s2) (value :: values)
      | _ => Raise JSONDecodeError
      end
  end.

(** [json.loads(s)] *)
Definition json_loads (s : pystr) : result json :=
  if startswith [65279%N] s then Raise JSONDecodeError
  else
    '(obj, rest) ← scan_once (2 * length s + 2) (skip_ws s);
    match skip_ws rest with
    | [] => Ok obj
    | _ => Raise JSONDecodeError
    end.

(** *** [clean_llm_json] and [generate_ai_summary] *)

(** The text [clean_llm_json] hands to [json.loads]. *)
Definition cleaned (raw_text : pystr) : pystr :=
  let raw_text1 :=
    if contains fence raw_text
    then sub_closing_fence (strip (sub_opening_fence (strip raw_text)))
    else raw_text in
  let raw_text2 :=
    match find 123 raw_text1, rfind 125 raw_text1 with
    | Some start_idx, Some end_idx => slice raw_text1 start_idx (end_idx + 1)
    | _, _ => raw_text1
    end in
  let raw_text3 := strip_control raw_text2 in
  replace replaced_text [34%N] raw_text3.

Definition clean_llm_json (raw_text : pystr) : result json :=
  json_loads (cleaned raw_text).

Definition placeholder : json :=
  JDict [ (of_ascii "summary", JStr (of_ascii "Data processed."));
          (of_ascii "keyObservations", JList []) ].

(** [generate_ai_summary]; [reply] is what the chat completion gives: an
    exception, or the content of the first choice, which may be [None]. *)
Definition generate_ai_summary (reply : result (option pystr)) : json :=
  try_except
    (response ← reply;
     match response with
     | Some content => clean_llm_json (strip content)
     | None => Raise AttributeError
     end)
    (fun _ => placeholder).

(** What [recommendation_agent.clean_llm_json] does at this step: the
    left and the right curly double quote (U+201C, U+201D) become the
    ASCII double quote. *)
Definition normalize_smart_quotes (s : pystr) : pystr :=
  replace [8221%N] [34%N] (replace [8220%N] [34%N] s).

End Insight.

(** ** The shape the three dimension loops share *)

Module Dimensions.
Section Generic.

Context {K : Type}.
(** Which columns a mapped question selects, the value of a dimension
  without columns, and what is done to the mean. *)
Variable selects : K -> string -> bool.
Variable default : cell.
Variable post : cell -> cell.

Definition find_first (data : DataFrame) (q : K) : option string :=
head (List.filter (selects q) (columns data)).

Definition step (data : DataFrame) (entry : string * list K) : DataFrame :=
let '(dim, queries) := entry in
match omap (find_first data) queries with
| [] => Pandas.set_column data dim (fun _ => default)
| cols => Pandas.set_column data dim (fun r => post (Pandas.row_mean cols r))
end.

(** The score of one dimension on one row of the frame. *)
Definition score (df : DataFrame) (queries : list K) (r : row) : cell :=
match omap (find_first df) queries with
| [] => default
| cols => post (Pandas.row_mean cols r)
end.

(** No mapped question selects the name of a dimension. *)
Definition names_apart (names : list string) (mapping : list (string * list K)) : bool :=
forallb (fun n => forallb (fun e => forallb (fun q => negb (selects q n)) (snd e)) mapping)
        names.

End Generic.
End Dimensions.

(** ** Reading the results *)

Module Spec.

Definition opt0 (x : option Q) : Q :=
  match x with Some q => q | None => 0%Q end.

(** The rate an update carries, a null one read as 0. *)
Definition stored_rate (u : gmap string cell) (k : string) : Q :=
  match u !! k with Some (Num q) => q | _ => 0%Q end.

(** The question index a mapped column name starts with: [Q12_Career_Opp]
    is question 12. *)
Fixpoint digits_value (acc : N) (s : string) : N :=
  match s with
  | String a t =>
      match Datetime.digit a with
      | Some d => digits_value (10 * acc + Z.to_N d) t
      | None => acc
      end
  | EmptyString => acc
  end.

Definition question_number (name : string) : option N :=
  match name with
  | String "Q"%char (String a t) =>
      match Datetime.digit a with
      | Some _ => Some (digits_value 0 (String a t))
      | None => None
      end
  | _ => None
  end.

(** A column carries question [n] when it is named [Qn], or [Qn_] and a
    descriptive suffix. *)
Definition carries_question (n : N) (c : string) : bool :=
  (Pandas.str_eqb c (RiskEngineHelpers.qname n)
   || String.prefix (RiskEngineHelpers.qname n ++ "_")%string c)%bool.

Definition question_column (df : DataFrame) (n : N) : option string :=
  head (List.filter (carries_question n) (columns df)).

(** The same with the suffix required, as the upload path matches. *)
Definition suffixed_column (df : DataFrame) (n : N) : option string :=
  head (List.filter (String.prefix (RiskEngineHelpers.qname n ++ "_")%string) (columns df)).

(** The arithmetic mean of the non-null values a row holds in the given
    columns. *)
Definition mean_over (cols : list string) (r : row) : cell :=
  Pandas.mean (List.map (Pandas.at_ r) cols).

(** The mean rounded to [d] decimals. *)
Definition rounded (d : nat) (v : cell) : cell :=
  match v with Num q => Num (Num.round d q) | other => other end.

(** [clip(((6 - (q1 + q12) / 2) - 1) / 4 * 100, 0, 100)] rounded to one
    decimal. *)
Definition attrition_formula (q1 q12 : Q) : Q :=
  Num.round 1 (Num.clip (((6 - (q1 + q12) / 2) - 1) / 4 * 100) 0 100)%Q.

(** The column [calculate_row_metrics] reads the dates from. *)
Definition date_column (df : DataFrame) : string :=
  if Pandas.has_column df "submission_date" then "submission_date" else "Submission_Date".

(** What [pd.to_datetime] makes of the date of row [i]. *)
Definition parsed (to_datetime : list cell -> list (option Datetime.datetime))
    (df : DataFrame) (i : nat) : option Datetime.datetime :=
  match to_datetime (List.map (fun r => Pandas.at_ r (date_column df)) (rows df)) !! i with
  | Some (Some dt) => Some dt
  | _ => None
  end.

(** The columns [calculate_row_metrics] assigns before the temporal ones. *)
Definition metric_names : list string :=
  (List.map fst RiskEngineHelpers.dimension_map
   ++ ["stress_rate"; "Stress_Score"; "engagement_rate"; "Turnover_Risk_Label";
       "attrition_rate"])%list.

(** The columns [calculate_survey_metrics] renames or assigns. *)
Definition id_names : list string := ["mployee_id"; "employee_id"; "Employee_ID"].

Definition survey_rate_names : list string :=
  ["engagement_rate"; "stress_rate"; "Stress_Score"; "attrition_rate"].

Definition survey_assigned : list string :=
  (id_names ++ List.map fst RiskEngineHelpers.survey_dimension_map
   ++ ["engagement_rate"; "stress_rate"; "Stress_Score"])%list.

(** The cell of row [i] in column [c]. *)
Definition cell_at (df : DataFrame) (i : nat) (c : string) : option cell :=
  (fun r : row => Pandas.at_ r c) <$> rows df !! i.

(** Every mapped column name starts with a question index, and the text
    before its first underscore is [Q] and that index. *)
Definition well_numbered (mapping : list (string * list string)) : bool :=
  forallb (fun e : string * list string =>
    forallb (fun q =>
      match question_number q with
      | Some n => String.eqb (Text.before_underscore q) (RiskEngineHelpers.qname n)
      | None => false
      end) (snd e)) mapping.

(** The rows [filter_metrics] counts for quarter [q]: those of the year,
    of the department when one is asked for, and of the quarter. *)
Definition quarter_rows (current_year : Z) (df : DataFrame)
    (department : option string) (year : option Z) (q : string) : list row :=
  let y := match year with Some y => y | None => current_year end in
  List.filter (fun r =>
    ((if Pandas.has_column df "Year"
      then Pandas.cell_eqb (Pandas.at_ r "Year") (Num (inject_Z y)) else true)
     && match RiskEngine.truthy_str department with
        | Some d => Pandas.str_lower_eq (Pandas.at_ r "Department") (Pandas.lower d)
        | None => true
        end
     && Pandas.str_upper_eq (Pandas.at_ r "Quarter") (Pandas.upper q))%bool) (rows df).

(** Two rows are submissions of the same employee. *)
Definition same_employee (a b : row) : bool :=
  Pandas.cell_eqb (Pandas.at_ a "employee_id") (Pandas.at_ b "employee_id").

(** Row [a] was submitted no earlier than row [b], by the column [c]; a
    row without a date is earlier than any dated one. *)
Definition no_earlier (c : string) (a b : row) : bool :=
  Pandas.key_geb (Pandas.date_key (Pandas.at_ a c)) (Pandas.date_key (Pandas.at_ b c)).

(** What is asked of [sort_values(by=c, ascending=False)]: the same rows,
    latest first. *)
Definition sorts_descending (sort : string -> list row -> list row) : Prop :=
  forall (c : string) (l : list row),
    Permutation (sort c l) l /\
    StronglySorted (fun a b => no_earlier c a b = true) (sort c l).

(** A submission date the code takes as valid: a string that
    [strptime(_, "%Y-%m-%d")] accepts. *)
Definition valid_submission_date (v : cell) : bool :=
  match v with
  | Str s => match Datetime.strptime s with Some _ => true | None => false end
  | _ => false
  end.

(** [df'] is [df] after assignments to (or renamings among) the columns
    [names]: as many rows, changed at most in these columns, and the same
    columns in the same order once those of [names] are left out. *)
Definition assigns (names : list string) (df df' : DataFrame) : Prop :=
  (forall p : string -> bool,
      (forall n, In n names -> p n = false) ->
      List.filter p (columns df') = List.filter p (columns df)) /\
  length (rows df') = length (rows df) /\
  forall (i : nat) (r : row),
    rows df !! i = Some r ->
    exists r' : row,
      rows df' !! i = Some r' /\ forall c, ~ In c names -> r' !! c = r !! c.

End Spec.

(** ** Sample inputs *)

Module Sample.

Definition row_of (l : list (string * cell)) : row := list_to_map l.

(** One department, "Ops", with two survey rows. *)
Definition dept_frame : DataFrame :=
  {| columns := ["department"; "engagement_rate"; "attrition_rate"; "burnout_rate"]
                ++ List.map fst Upload.DIMENSION_MAPPING;
     rows := [ row_of [("department", Str "Ops"); ("engagement_rate", Num 40);
                       ("attrition_rate", Num 30); ("burnout_rate", Num 20)];
               row_of [("department", Str "Ops"); ("engagement_rate", Num 50);
                       ("attrition_rate", Num 10); ("burnout_rate", Num 20)] ] |}.

Definition existing_depts : list row :=
  [ row_of [("department_name", Str "Ops"); ("department_id", Str "D1")] ].

(** A survey frame with the fifteen question columns under the names of
    the mappings, and one answer sheet. *)
Definition likert_row : row :=
  row_of [("employee_id", Str "E1"); ("department", Str "Ops");
          ("submission_date", Str "2024-03-15");
          ("Q1_Recommend", Num 5); ("Q2_Sup_Feedback", Num 4);
          ("Q3_Enablement_Tools", Num 3); ("Q4_Sup_Career_Interest", Num 4);
          ("Q5_Quality_Services", Num 5); ("Q6_Trust_Top_Mgmt", Num 2);
          ("Q7_Diversity_Inclusion", Num 4); ("Q8_ESG_Community", Num 3);
          ("Q9_Proud_Work", Num 5); ("Q10_Sup_Informed", Num 3);
          ("Q11_Systems_Process", Num 2); ("Q12_Career_Opp", Num 4);
          ("Q13_Great_Service", Num 5); ("Q14_Future_Success", Num 3);
          ("Q15_Respect", Num 4)].

Definition likert_frame : DataFrame :=
  {| columns := ["employee_id"; "department"; "submission_date";
                 "Q1_Recommend"; "Q2_Sup_Feedback"; "Q3_Enablement_Tools";
                 "Q4_Sup_Career_Interest"; "Q5_Quality_Services"; "Q6_Trust_Top_Mgmt";
                 "Q7_Diversity_Inclusion"; "Q8_ESG_Community"; "Q9_Proud_Work";
                 "Q10_Sup_Informed"; "Q11_Systems_Process"; "Q12_Career_Opp";
                 "Q13_Great_Service"; "Q14_Future_Success"; "Q15_Respect"];
     rows := [ likert_row ] |}.

(** A frame without a column for question 12. *)
Definition no_q12_frame : DataFrame :=
  {| columns := ["employee_id"; "Q1_Recommend"; "Q9_Proud_Work"];
     rows := [ row_of [("employee_id", Str "E1"); ("Q1_Recommend", Num 2);
                       ("Q9_Proud_Work", Num 3)] ] |}.

(** Three answers behind [Dim_Enablement] on the upload path. *)
Definition enablement_frame : DataFrame :=
  {| columns := ["Q3_Enablement_Tools"; "Q11_Systems_Process"; "Q29_Health_Safety"];
     rows := [ row_of [("Q3_Enablement_Tools", Num 1); ("Q11_Systems_Process", Num 1);
                       ("Q29_Health_Safety", Num 2)] ] |}.

(** A record whose submission date is no date. *)
Definition bad_date_row : row :=
  row_of [("employee_id", Str "E1"); ("submission_date", Str "not-a-date")].

Definition bad_date_frame : DataFrame :=
  {| columns := ["employee_id"; "submission_date"]; rows := [ bad_date_row ] |}.

(** A record submitted on Christmas Day 2024. *)
Definition christmas_row : row :=
  row_of [("employee_id", Str "E1"); ("submission_date", Str "2024-12-25")].

Definition christmas_frame : DataFrame :=
  {| columns := ["employee_id"; "submission_date"]; rows := [ christmas_row ] |}.

(** A holiday table with Christmas Day only, and a [to_datetime] that
    parses nothing. *)
Definition christmas_only (year : Z) : list (Datetime.date * string) :=
  [ (Datetime.mkdate year 12 25, "Christmas Day") ].

Definition no_holidays (year : Z) : list (Datetime.date * string) := [].

Definition parse_nothing (series : list cell) : list (option Datetime.datetime) :=
  List.map (fun _ => None) series.

(** Aggregated metrics of 2024 with nothing for the third quarter. *)
Definition trend_frame : DataFrame :=
  {| columns := ["Department"; "Year"; "Quarter"; "Response_Count"; "Burnout_Rate";
                 "Turnover_Risk"; "eNPS"; "Overall_Engagement"];
     rows := [ row_of [("Department", Str "Ops"); ("Year", Num 2024); ("Quarter", Str "Q1");
                       ("Response_Count", Num 12); ("Burnout_Rate", Num 25);
                       ("Turnover_Risk", Num 10); ("eNPS", Num 20);
                       ("Overall_Engagement", Num (7 # 2))];
               row_of [("Department", Str "Ops"); ("Year", Num 2024); ("Quarter", Str "Q2");
                       ("Response_Count", Num 9); ("Burnout_Rate", Num 30);
                       ("Turnover_Risk", Num 15); ("eNPS", Num 10);
                       ("Overall_Engagement", Num 3)];
               row_of [("Department", Str "Ops"); ("Year", Num 2024); ("Quarter", Str "Q4");
                       ("Response_Count", Num 11); ("Burnout_Rate", Num 20);
                       ("Turnover_Risk", Num 5); ("eNPS", Num 30);
                       ("Overall_Engagement", Num 4)] ] |}.

(** A sort by insertion, latest first. *)
Fixpoint insert_desc (c : string) (x : row) (l : list row) : list row :=
  match l with
  | [] => [x]
  | y :: l' => if Spec.no_earlier c x y then x :: y :: l' else y :: insert_desc c x l'
  end.

Definition sort_desc (c : string) (l : list row) : list row :=
  fold_right (insert_desc c) [] l.

Definition at_midnight (y m d : Z) : Datetime.datetime :=
  Datetime.mkdatetime (Datetime.mkdate y m d) 0.

(** Two submissions of employee E1, of January and of June 2024, with
    their rates. *)
Definition january_row : row :=
  row_of [("employee_id", Str "E1"); ("department", Str "Ops");
          ("submission_date", Date (at_midnight 2024 1 1));
          ("engagement_rate", Num 20); ("stress_rate", Num 70); ("attrition_rate", Num 75)].

Definition june_row : row :=
  row_of [("employee_id", Str "E1"); ("department", Str "Ops");
          ("submission_date", Date (at_midnight 2024 6 1));
          ("engagement_rate", Num 80); ("stress_rate", Num 10); ("attrition_rate", Num 25)].

Definition rate_columns : list string :=
  ["employee_id"; "department"; "submission_date"; "engagement_rate"; "stress_rate";
   "attrition_rate"].

Definition two_submissions : DataFrame :=
  {| columns := rate_columns; rows := [january_row; june_row] |}.

Definition june_only : DataFrame :=
  {| columns := rate_columns; rows := [june_row] |}.

(** The same two submissions as [get_risk_summary_by_department] reads
    them, dated in the column [Submission_Date]. *)
Definition january_merged : row :=
  row_of [("employee_id", Str "E1"); ("Department", Str "Ops");
          ("Submission_Date", Date (at_midnight 2024 1 1)); ("Overall_Engagement", Num 2)].

Definition june_merged : row :=
  row_of [("employee_id", Str "E1"); ("Department", Str "Ops");
          ("Submission_Date", Date (at_midnight 2024 6 1)); ("Overall_Engagement", Num 4)].

Definition merged_columns : list string :=
  ["employee_id"; "Department"; "Submission_Date"; "Overall_Engagement"].

Definition two_merged : DataFrame :=
  {| columns := merged_columns; rows := [january_merged; june_merged] |}.

Definition june_merged_only : DataFrame :=
  {| columns := merged_columns; rows := [june_merged] |}.

(** Replies of the language model: a fenced JSON object, a text that is
    no JSON, and a JSON object written with curly quotes. *)
Definition dq : Insight.pystr := [34%N].

Definition fenced_reply : Insight.pystr :=
  Insight.of_ascii "```json" ++ [10%N] ++ Insight.of_ascii "{" ++ dq
  ++ Insight.of_ascii "summary" ++ dq ++ Insight.of_ascii ": " ++ dq
  ++ Insight.of_ascii "ok" ++ dq ++ Insight.of_ascii "}" ++ [10%N]
  ++ Insight.of_ascii "```".

Definition not_json_reply : Insight.pystr := Insight.of_ascii "not json at all".

Definition curly_reply : Insight.pystr :=
  Insight.of_ascii "{" ++ [8220%N] ++ Insight.of_ascii "summary" ++ [8221%N]
  ++ Insight.of_ascii ": " ++ [8220%N] ++ Insight.of_ascii "ok" ++ [8221%N]
  ++ Insight.of_ascii "}".

(** The dictionary with the one entry [summary], of value [ok]. *)
Definition summary_ok : Insight.json :=
  Insight.JDict [ (Insight.of_ascii "summary", Insight.JStr (Insight.of_ascii "ok")) ].

End Sample.

(* ===================================================================== *)
(** * Part II: properties                                                 *)
(* ===================================================================== *)

(** ** Arithmetic helpers *)

Lemma Qltb_lt (a b : Q) : Num.Qltb a b = true <-> (a < b)%Q.
Proof.
  unfold Num.Qltb. rewrite negb_true_iff.
  split; intros H.
  - apply Qnot_le_lt. intros Hle. apply Qle_bool_iff in Hle. congruence.
  - destruct (Qle_bool b a) eqn:E; [|reflexivity].
    apply Qle_bool_iff in E. exfalso. exact (Qlt_not_le _ _ H E).
Qed.

Lemma Qltb_ge (a b : Q) : Num.Qltb a b = false <-> (b <= a)%Q.
Proof.
  unfold Num.Qltb. rewrite negb_false_iff. apply Qle_bool_iff.
Qed.

Lemma Qleb_le (a b : Q) : Num.Qleb a b = true <-> (a <= b)%Q.
Proof. apply Qle_bool_iff. Qed.

Lemma Qleb_gt (a b : Q) : Num.Qleb a b = false <-> (b < a)%Q.
Proof.
  unfold Num.Qleb. split; intros H.
  - apply Qnot_le_lt. intros Hle. apply Qle_bool_iff in Hle. congruence.
  - destruct (Qle_bool a b) eqn:E; [|reflexivity].
    apply Qle_bool_iff in E. exfalso. exact (Qlt_not_le _ _ H E).
Qed.

Local Open Scope Q_scope.


Lemma clip_spec (x lo hi : Q) :
  lo <= hi ->
  (x < lo /\ Num.clip x lo hi = lo) \/
  (hi < x /\ Num.clip x lo hi = hi) \/
  (lo <= x <= hi /\ Num.clip x lo hi = x).
Proof.
  intros Hlh. unfold Num.clip.
  destruct (Num.Qltb x lo) eqn:E1.
  - left. apply Qltb_lt in E1. auto.
  - apply Qltb_ge in E1. destruct (Num.Qltb hi x) eqn:E2.
    + right; left. apply Qltb_lt in E2. auto.
    + right; right. apply Qltb_ge in E2. auto.
Qed.

Lemma rint_inject_Z (z : Z) : Num.rint (inject_Z z) = z.
Proof.
  unfold Num.rint. rewrite Qfloor_Z.
  assert (H : ((inject_Z z - inject_Z z) ?= (1 # 2)) = Lt).
  { apply (proj1 (Qlt_alt _ _)). lra. }
  rewrite H. reflexivity.
Qed.

Lemma rint_cases (q : Q) :
  let f := Qfloor q in
  (Num.rint q = f /\ q - inject_Z f <= 1 # 2) \/
  (Num.rint q = (f + 1)%Z /\ 1 # 2 <= q - inject_Z f).
Proof.
  intros f. unfold Num.rint. fold f.
  destruct ((q - inject_Z f) ?= (1 # 2)) eqn:E.
  - apply (proj2 (Qeq_alt _ _)) in E. destruct (Z.even f); [left | right]; split; auto; lra.
  - apply (proj2 (Qlt_alt _ _)) in E. left. split; auto. lra.
  - apply (proj2 (Qgt_alt _ _)) in E. right. split; auto. lra.
Qed.

Lemma rint_mono (q r : Q) : q <= r -> (Num.rint q <= Num.rint r)%Z.
Proof.
  intros Hqr.
  pose proof (Qfloor_resp_le _ _ Hqr) as Hf.
  pose proof (Qfloor_le q) as Hq1. pose proof (Qlt_floor q) as Hq2.
  pose proof (Qfloor_le r) as Hr1. pose proof (Qlt_floor r) as Hr2.
  destruct (Z.eq_dec (Qfloor q) (Qfloor r)) as [Heq | Hne].
  - unfold Num.rint. rewrite <- Heq.
    destruct ((q - inject_Z (Qfloor q)) ?= (1 # 2)) eqn:Eq;
    destruct ((r - inject_Z (Qfloor q)) ?= (1 # 2)) eqn:Er;
    first [apply (proj2 (Qeq_alt _ _)) in Eq | apply (proj2 (Qlt_alt _ _)) in Eq
          | apply (proj2 (Qgt_alt _ _)) in Eq];
    first [apply (proj2 (Qeq_alt _ _)) in Er | apply (proj2 (Qlt_alt _ _)) in Er
          | apply (proj2 (Qgt_alt _ _)) in Er];
    try destruct (Z.even (Qfloor q)); try lia; exfalso; lra.
  - assert (Hlt : (Qfloor q + 1 <= Qfloor r)%Z) by lia.
    destruct (rint_cases q) as [[-> _] | [-> _]];
    destruct (rint_cases r) as [[-> _] | [-> _]]; lia.
Qed.

Lemma pow10_pos (d : nat) : 0 < Num.pow10 d.
Proof.
  unfold Num.pow10. replace 0 with (inject_Z 0) by reflexivity.
  rewrite <- Zlt_Qlt. apply Z.pow_pos_nonneg; lia.
Qed.

Lemma rint_comp (q r : Q) : q == r -> Num.rint q = Num.rint r.
Proof.
  intros H. apply Z.le_antisymm; apply rint_mono; rewrite H; apply Qle_refl.
Qed.

Lemma round_mono (d : nat) (q r : Q) : q <= r -> Num.round d q <= Num.round d r.
Proof.
  intros H. unfold Num.round.
  pose proof (pow10_pos d) as Hp.
  apply Qmult_le_compat_r.
  - rewrite <- Zle_Qle. apply rint_mono. apply Qmult_le_compat_r; [exact H | lra].
  - apply Qlt_le_weak. apply Qinv_lt_0_compat. exact Hp.
Qed.

Lemma round_inject_Z (d : nat) (z : Z) : Num.round d (inject_Z z) == inject_Z z.
Proof.
  unfold Num.round, Num.pow10.
  rewrite (rint_comp _ (inject_Z (z * 10 ^ Z.of_nat d))).
  - rewrite rint_inject_Z. rewrite inject_Z_mult.
    field. pose proof (pow10_pos d) as Hp. unfold Num.pow10 in Hp. lra.
  - rewrite inject_Z_mult. reflexivity.
Qed.

Lemma pct_range (x : Q) : 0 <= RiskEngineHelpers.pct x <= 100.
Proof.
  unfold RiskEngineHelpers.pct.
  destruct (clip_spec ((x - 1) / 4 * 100) 0 100) as [[_ ->] | [[_ ->] | [H ->]]]; lra.
Qed.

Lemma pct_linear (x : Q) : 1 <= x -> x <= 5 -> RiskEngineHelpers.pct x == (x - 1) * 25.
Proof.
  intros H1 H5. unfold RiskEngineHelpers.pct.
  assert (E : (x - 1) / 4 * 100 == (x - 1) * 25) by field.
  destruct (clip_spec ((x - 1) / 4 * 100) 0 100) as [[H ->] | [[H ->] | [H ->]]]; lra.
Qed.

Lemma rate_range (x : Q) : 0 <= RiskEngineHelpers.rate x <= 100.
Proof.
  unfold RiskEngineHelpers.rate. pose proof (pct_range x) as [H0 H100].
  split.
  - rewrite <- (round_inject_Z 1 0). apply round_mono. exact H0.
  - rewrite <- (round_inject_Z 1 100). apply round_mono. exact H100.
Qed.

Local Close Scope Q_scope.

(** ** Risk labels ([team.py]) *)

Ltac label_cases :=
  repeat match goal with
  | |- context [Num.Qltb ?a ?b] =>
      let E := fresh "E" in
      destruct (Num.Qltb a b) eqn:E;
      [apply Qltb_lt in E | apply Qltb_ge in E]
  | |- context [Num.Qleb ?a ?b] =>
      let E := fresh "E" in
      destruct (Num.Qleb a b) eqn:E;
      [apply Qleb_le in E | apply Qleb_gt in E]
  end.

Ltac label_solve :=
  repeat split; intros; try discriminate; try reflexivity;
  repeat match goal with H : _ /\ _ |- _ => destruct H end;
  try lra.

(** C2. With [metric_type = "score"] the label of a number [v] is
    "healthy" iff [v > 75], "watch" iff [65 < v <= 75], "warning" iff
    [55 <= v <= 65] and "critical" iff [v < 55]; with any other metric type
    it is "healthy" iff [v <= 20], "watch" iff [20 < v <= 35], "warning" iff
    [35 < v <= 50] and "critical" iff [v > 50]; a null or NaN value is
    "healthy"; and the four boundary examples of the specification hold. *)
Theorem calculate_risk_label_thresholds :
  (forall v : Q,
      let l := Team.calculate_risk_label (Some (Team.Fin v)) "score" in
      (l = "healthy" <-> (75 < v)%Q) /\
      (l = "watch" <-> (65 < v)%Q /\ (v <= 75)%Q) /\
      (l = "warning" <-> (55 <= v)%Q /\ (v <= 65)%Q) /\
      (l = "critical" <-> (v < 55)%Q)) /\
  (forall (v : Q) (metric_type : string),
      metric_type <> "score" ->
      let l := Team.calculate_risk_label (Some (Team.Fin v)) metric_type in
      (l = "healthy" <-> (v <= 20)%Q) /\
      (l = "watch" <-> (20 < v)%Q /\ (v <= 35)%Q) /\
      (l = "warning" <-> (35 < v)%Q /\ (v <= 50)%Q) /\
      (l = "critical" <-> (50 < v)%Q)) /\
  (forall metric_type : string,
      Team.calculate_risk_label None metric_type = "healthy" /\
      Team.calculate_risk_label (Some Team.FNaN) metric_type = "healthy") /\
  Team.calculate_risk_label (Some (Team.Fin (7501 # 100))) "score" = "healthy" /\
  Team.calculate_risk_label (Some (Team.Fin 75)) "score" = "watch" /\
  Team.calculate_risk_label (Some (Team.Fin 65)) "score" = "warning" /\
  Team.calculate_risk_label (Some (Team.Fin (5499 # 100))) "score" = "critical".
Proof.
  split; [|split; [|split]].
  - intros v l. subst l. unfold Team.calculate_risk_label. simpl.
    unfold Team.gt, Team.ge. label_cases; label_solve.
  - intros v metric_type Hmt l. subst l. unfold Team.calculate_risk_label.
    destruct (String.eqb metric_type "score") eqn:E.
    + apply String.eqb_eq in E. contradiction.
    + unfold Team.le. label_cases; label_solve.
  - intros metric_type. split; reflexivity.
  - repeat split; reflexivity.
Qed.

(** The thresholds at a concrete value and a metric type other than
    "score". *)
Lemma calculate_risk_label_thresholds_witness :
  "burnout" <> "score" /\
  (Team.calculate_risk_label (Some (Team.Fin 51)) "burnout" = "critical" <-> (50 < 51)%Q).
Proof.
  split; [discriminate|].
  destruct calculate_risk_label_thresholds as (_ & Hother & _).
  exact (proj2 (proj2 (proj2 (Hother 51%Q "burnout" ltac:(discriminate))))).
Defined.

(** ** The Likert-to-percentage transform ([risk_engine_helpers.py]) *)

Local Open Scope Q_scope.

(** C9. The transform [pct x = clip ((x - 1) / 4 * 100) 0 100] behind
    [engagement_rate], [stress_rate] and [attrition_rate] sends 1 to 0 and 5
    to 100, is strictly increasing on [1, 5], and always lies in [0, 100];
    so does the rate the code stores, which is [pct] rounded to one
    decimal. *)
Theorem pct_likert_transform :
  RiskEngineHelpers.pct 1 == 0 /\
  RiskEngineHelpers.pct 5 == 100 /\
  (forall x y : Q, 1 <= x -> x < y -> y <= 5 ->
     RiskEngineHelpers.pct x < RiskEngineHelpers.pct y) /\
  (forall x : Q, 0 <= RiskEngineHelpers.pct x <= 100) /\
  (forall x : Q, 0 <= RiskEngineHelpers.rate x <= 100).
Proof.
  split; [reflexivity|]. split; [reflexivity|]. split; [|split].
  - intros x y H1 Hxy H5. rewrite (pct_linear x), (pct_linear y); lra.
  - exact pct_range.
  - exact rate_range.
Qed.

(** The monotonicity at the Likert values 2 and 4. *)
Lemma pct_likert_transform_witness :
  RiskEngineHelpers.pct 2 < RiskEngineHelpers.pct 4.
Proof.
  destruct pct_likert_transform as (_ & _ & Hmono & _).
  apply Hmono; lra.
Defined.

Local Close Scope Q_scope.

Local Open Scope list_scope.

(** ** Frames *)

Lemma str_eqb_eq (a b : string) : Pandas.str_eqb a b = true <-> a = b.
Proof. apply String.eqb_eq. Qed.

Lemma str_eqb_neq (a b : string) : Pandas.str_eqb a b = false <-> a <> b.
Proof. apply String.eqb_neq. Qed.

Lemma at_insert (r : row) (n c : string) (v : cell) :
  Pandas.at_ (<[n := v]> r) c = if Pandas.str_eqb n c then v else Pandas.at_ r c.
Proof.
  unfold Pandas.at_. destruct (Pandas.str_eqb n c) eqn:E.
  - apply str_eqb_eq in E as ->. rewrite lookup_insert_eq. reflexivity.
  - apply str_eqb_neq in E. rewrite lookup_insert_ne by done. reflexivity.
Qed.

Lemma at_insert_eq (r : row) (n : string) (v : cell) : Pandas.at_ (<[n := v]> r) n = v.
Proof. unfold Pandas.at_. rewrite lookup_insert_eq. reflexivity. Qed.

Lemma at_insert_ne (r : row) (n c : string) (v : cell) :
  n <> c -> Pandas.at_ (<[n := v]> r) c = Pandas.at_ r c.
Proof. intros H. unfold Pandas.at_. rewrite lookup_insert_ne by done. reflexivity. Qed.

Lemma set_column_row (df : DataFrame) (n : string) (f : row -> cell) (i : nat) (r : row) :
  rows df !! i = Some r ->
  rows (Pandas.set_column df n f) !! i = Some (<[n := f r]> r).
Proof.
  intros H. unfold Pandas.set_column. simpl.
  change (List.map ?g ?l) with (g <$> l).
  rewrite list_lookup_fmap, H. reflexivity.
Qed.

(** The columns a step may add: the old ones, then perhaps the new name. *)
Lemma set_column_columns (df : DataFrame) (n : string) (f : row -> cell) :
  columns (Pandas.set_column df n f) = columns df \/
  columns (Pandas.set_column df n f) = columns df ++ [n].
Proof. unfold Pandas.set_column. simpl. destruct (Pandas.has_column df n); auto. Qed.

Lemma has_column_set (df : DataFrame) (n : string) (f : row -> cell) (c : string) :
  Pandas.has_column (Pandas.set_column df n f) c
  = (Pandas.has_column df c || Pandas.str_eqb c n)%bool.
Proof.
  unfold Pandas.has_column at 1. unfold Pandas.set_column. simpl.
  destruct (Pandas.has_column df n) eqn:E.
  - fold (Pandas.has_column df c).
    destruct (Pandas.str_eqb c n) eqn:E2; [|rewrite orb_false_r; reflexivity].
    apply str_eqb_eq in E2 as ->. rewrite E. reflexivity.
  - rewrite existsb_app. simpl. rewrite orb_false_r. reflexivity.
Qed.

(** A name that fails a column test does not change what the test finds
    when a step adds it. *)
Lemma filter_set_column (p : string -> bool) (df : DataFrame) (n : string) (f : row -> cell) :
  p n = false ->
  List.filter p (columns (Pandas.set_column df n f)) = List.filter p (columns df).
Proof.
  intros H. destruct (set_column_columns df n f) as [-> | ->]; [reflexivity|].
  rewrite List.filter_app. simpl. rewrite H. apply app_nil_r.
Qed.

Lemma omap_ext_eq {A B : Type} (f g : A -> option B) (l : list A) :
  (forall x, f x = g x) -> omap f l = omap g l.
Proof.
  intros H. induction l as [|x l IH]; [reflexivity|].
  cbn. rewrite H, IH. reflexivity.
Qed.

Lemma omap_ext_in {A B : Type} (f g : A -> option B) (l : list A) :
  (forall x, In x l -> f x = g x) -> omap f l = omap g l.
Proof.
  induction l as [|x l IH]; intros H; [reflexivity|].
  cbn. rewrite (H x) by (left; reflexivity).
  rewrite IH by (intros y Hy; apply H; right; exact Hy). reflexivity.
Qed.

(** Every selected column passes the test of its question. *)
Lemma find_first_selects {K : Type} (selects : K -> string -> bool) (data : DataFrame) (q : K) (c : string) :
  Dimensions.find_first selects data q = Some c -> selects q c = true.
Proof.
  unfold Dimensions.find_first. intros H.
  destruct (List.filter (selects q) (columns data)) as [|c' l] eqn:E; [discriminate|].
  injection H as ->.
  assert (Hin : In c (List.filter (selects q) (columns data))) by (rewrite E; left; reflexivity).
  apply List.filter_In in Hin. tauto.
Qed.

Lemma omap_find_selects {K : Type} (selects : K -> string -> bool) (data : DataFrame) (queries : list K) (c : string) :
  In c (omap (Dimensions.find_first selects data) queries) -> exists q, In q queries /\ selects q c = true.
Proof.
  intros H. apply list_elem_of_In, list_elem_of_omap in H as (q & Hq & Hc).
  exists q. split; [apply list_elem_of_In; exact Hq | eapply find_first_selects; exact Hc].
Qed.

Lemma names_apart_spec {K : Type} (selects : K -> string -> bool) (names : list string) (mapping : list (string * list K)) :
  Dimensions.names_apart selects names mapping = true ->
  forall n e q, In n names -> In e mapping -> In q (snd e) -> selects q n = false.
Proof.
  unfold Dimensions.names_apart. intros H n e q Hn He Hq.
  rewrite forallb_forall in H. specialize (H n Hn).
  rewrite forallb_forall in H. specialize (H e He).
  rewrite forallb_forall in H. specialize (H q Hq).
  apply negb_true_iff in H. exact H.
Qed.

Section DimensionLoop.

Context {K : Type} (selects : K -> string -> bool) (default : cell) (post : cell -> cell).

Abbreviation step := (Dimensions.step selects default post).
Abbreviation score := (Dimensions.score selects default post).
Abbreviation find_first := (Dimensions.find_first selects).

Lemma step_row (data : DataFrame) (dim : string) (queries : list K) (i : nat) (r : row) :
  rows data !! i = Some r ->
  rows (step data (dim, queries)) !! i = Some (<[dim := score data queries r]> r).
Proof.
  intros H. unfold Dimensions.step, Dimensions.score.
  destruct (omap (find_first data) queries); apply set_column_row; exact H.
Qed.

Lemma step_filter (p : string -> bool) (data : DataFrame) (dim : string) (queries : list K) :
  p dim = false ->
  List.filter p (columns (step data (dim, queries))) = List.filter p (columns data).
Proof.
  intros H. unfold Dimensions.step.
  destruct (omap (find_first data) queries); apply filter_set_column; exact H.
Qed.

Lemma step_has_column (data : DataFrame) (dim : string) (queries : list K) (c : string) :
  Pandas.has_column (step data (dim, queries)) c
  = (Pandas.has_column data c || Pandas.str_eqb c dim)%bool.
Proof.
  unfold Dimensions.step.
  destruct (omap (find_first data) queries); apply has_column_set.
Qed.

(** The score of a dimension does not see a column no question selects. *)
Lemma score_insert (df data : DataFrame) (queries : list K) (r : row) (n : string) (v : cell) :
  (forall q, In q queries -> selects q n = false) ->
  (forall q, In q queries ->
     List.filter (selects q) (columns data) = List.filter (selects q) (columns df)) ->
  score data queries (<[n := v]> r) = score df queries r.
Proof.
  intros Hn Hcols. unfold Dimensions.score.
  assert (E : omap (find_first data) queries = omap (find_first df) queries).
  { apply omap_ext_in. intros q Hq. unfold Dimensions.find_first.
    rewrite (Hcols q Hq). reflexivity. }
  rewrite E.
  destruct (omap (find_first df) queries) as [|c cols] eqn:Eo; [reflexivity|].
  f_equal. unfold Pandas.row_mean. f_equal.
  apply map_ext_in. intros c' Hc'. apply at_insert_ne.
  intros ->. rewrite <- Eo in Hc'.
  apply (omap_find_selects selects) in Hc' as (q & Hq & Hsel).
  rewrite (Hn q Hq) in Hsel. discriminate.
Qed.

(** What the loop over a mapping leaves in row [i]: every dimension holds
    its score on the row the loop started from, and no other column
    changes. *)
Lemma loop_rows (mapping : list (string * list K)) :
  forall (data : DataFrame) (i : nat) (r : row),
    rows data !! i = Some r ->
    NoDup (List.map fst mapping) ->
    (forall n e q, In n (List.map fst mapping) -> In e mapping -> In q (snd e) ->
                   selects q n = false) ->
    exists r' : row,
      rows (fold_left step mapping data) !! i = Some r' /\
      (forall dim qs, In (dim, qs) mapping -> Pandas.at_ r' dim = score data qs r) /\
      (forall c, ~ In c (List.map fst mapping) -> r' !! c = r !! c).
Proof.
  induction mapping as [|[d qs] rest IH]; intros data i r Hr Hnd Hap.
  - exists r. simpl. split; [exact Hr|]. split; [intros ? ? []|]. reflexivity.
  - simpl in Hnd. apply NoDup_cons in Hnd as [Hd Hnd].
    rewrite list_elem_of_In in Hd.
    pose proof (step_row data d qs i r Hr) as Hr1.
    destruct (IH _ i _ Hr1 Hnd) as (r' & Hr' & Hdims & Hrest).
    { intros n e q Hn He Hq. apply (Hap n e q); simpl; auto. }
    exists r'. split; [exact Hr'|]. split.
    + intros dim qs' [Heq | Hin].
      * injection Heq as <- <-. unfold Pandas.at_. rewrite (Hrest d Hd).
        rewrite lookup_insert_eq. reflexivity.
      * rewrite (Hdims dim qs' Hin). apply score_insert.
        -- intros q Hq. apply (Hap d (dim, qs') q); simpl; auto.
        -- intros q Hq. apply step_filter.
           apply (Hap d (dim, qs') q); simpl; auto.
    + intros c Hc. simpl in Hc. rewrite (Hrest c) by tauto.
      apply lookup_insert_ne. intros ->. tauto.
Qed.

Lemma loop_filter (p : string -> bool) (mapping : list (string * list K)) :
  forall data : DataFrame,
    (forall n, In n (List.map fst mapping) -> p n = false) ->
    List.filter p (columns (fold_left step mapping data)) = List.filter p (columns data).
Proof.
  induction mapping as [|[d qs] rest IH]; intros data Hp; [reflexivity|].
  cbn [fold_left]. rewrite IH by (intros n Hn; apply Hp; simpl; auto).
  apply step_filter. apply Hp. simpl. auto.
Qed.

Lemma loop_has_column (mapping : list (string * list K)) :
  forall (data : DataFrame) (c : string),
    Pandas.has_column (fold_left step mapping data) c
    = (Pandas.has_column data c || existsb (Pandas.str_eqb c) (List.map fst mapping))%bool.
Proof.
  induction mapping as [|[d qs] rest IH]; intros data c;
    cbn [fold_left List.map fst existsb].
  - rewrite orb_false_r. reflexivity.
  - rewrite IH, step_has_column, orb_assoc. reflexivity.
Qed.


End DimensionLoop.

(** ** Steps that leave the other columns alone *)

Lemma assigns_refl (names : list string) (df : DataFrame) : Spec.assigns names df df.
Proof.
  split; [|split].
  - reflexivity.
  - reflexivity.
  - intros i r H. exists r. auto.
Qed.

Lemma assigns_trans (n1 n2 : list string) (a b c : DataFrame) :
  Spec.assigns n1 a b -> Spec.assigns n2 b c -> Spec.assigns (n1 ++ n2) a c.
Proof.
  intros (C1 & L1 & H1) (C2 & L2 & H2). split; [|split].
  - intros p Hp. rewrite C2, C1; [reflexivity| |]; intros n Hn; apply Hp, in_or_app; auto.
  - congruence.
  - intros i r Hr.
    destruct (H1 i r Hr) as (r1 & Hr1 & E1).
    destruct (H2 i r1 Hr1) as (r2 & Hr2 & E2).
    exists r2. split; [exact Hr2|].
    intros col Hc. rewrite E2, E1; [reflexivity| |]; intros Hin; apply Hc, in_or_app; auto.
Qed.

Lemma assigns_weaken (n1 n2 : list string) (a b : DataFrame) :
  (forall c, In c n1 -> In c n2) -> Spec.assigns n1 a b -> Spec.assigns n2 a b.
Proof.
  intros Hsub (C & L & H). split; [|split].
  - intros p Hp. apply C. intros n Hn. apply Hp, Hsub, Hn.
  - exact L.
  - intros i r Hr. destruct (H i r Hr) as (r' & Hr' & E).
    exists r'. split; [exact Hr'|]. intros c Hc. apply E. intros Hin. apply Hc, Hsub, Hin.
Qed.

Lemma assigns_set_column (df : DataFrame) (n : string) (f : row -> cell) :
  Spec.assigns [n] df (Pandas.set_column df n f).
Proof.
  split; [|split].
  - intros p Hp. apply filter_set_column. apply Hp. left. reflexivity.
  - unfold Pandas.set_column. simpl. apply List.length_map.
  - intros i r Hr. exists (<[n := f r]> r). split; [apply set_column_row; exact Hr|].
    intros c Hc. apply lookup_insert_ne. intros ->. apply Hc. left. reflexivity.
Qed.

Lemma assign_rows_lookup (n : string) (rs : list row) :
  forall (vals : list cell) (i : nat) (r : row),
    rs !! i = Some r ->
    RiskEngineHelpers.assign_rows n rs vals !! i
    = Some (<[n := match vals !! i with Some v => v | None => NaN end]> r).
Proof.
  induction rs as [|r0 rs IH]; intros vals i r Hr; [discriminate|].
  destruct i as [|i]; simpl in Hr.
  - injection Hr as ->. destruct vals; reflexivity.
  - destruct vals as [|v vals]; simpl; rewrite (IH _ i r Hr); reflexivity.
Qed.

Lemma assign_rows_length (n : string) (rs : list row) :
  forall vals : list cell, length (RiskEngineHelpers.assign_rows n rs vals) = length rs.
Proof.
  induction rs as [|r0 rs IH]; intros vals; [reflexivity|].
  destruct vals; simpl; rewrite IH; reflexivity.
Qed.

Lemma assigns_assign (df : DataFrame) (n : string) (vals : list cell) :
  Spec.assigns [n] df (RiskEngineHelpers.assign df n vals).
Proof.
  split; [|split].
  - intros p Hp. unfold RiskEngineHelpers.assign. simpl.
    destruct (Pandas.has_column df n); [reflexivity|].
    rewrite List.filter_app. simpl. rewrite (Hp n) by (left; reflexivity).
    apply app_nil_r.
  - apply assign_rows_length.
  - intros i r Hr. eexists. split; [apply assign_rows_lookup; exact Hr|].
    intros c Hc. apply lookup_insert_ne. intros ->. apply Hc. left. reflexivity.
Qed.

Lemma assigns_then_set (names : list string) (a b : DataFrame) (n : string) (f : row -> cell) :
  Spec.assigns names a b -> Spec.assigns (n :: names) a (Pandas.set_column b n f).
Proof.
  intros H. apply (assigns_weaken (names ++ [n])).
  - intros c Hc. apply in_app_or in Hc as [Hc | [<- | []]]; simpl; auto.
  - eapply assigns_trans; [exact H | apply assigns_set_column].
Qed.

Lemma assigns_then_assign (names : list string) (a b : DataFrame) (n : string) (vals : list cell) :
  Spec.assigns names a b -> Spec.assigns (n :: names) a (RiskEngineHelpers.assign b n vals).
Proof.
  intros H. apply (assigns_weaken (names ++ [n])).
  - intros c Hc. apply in_app_or in Hc as [Hc | [<- | []]]; simpl; auto.
  - eapply assigns_trans; [exact H | apply assigns_assign].
Qed.

(** A column test that no assigned name passes finds the same columns
    afterwards. *)
Lemma assigns_filter (p : string -> bool) (names : list string) (a b : DataFrame) :
  Spec.assigns names a b ->
  (forall n, In n names -> p n = false) ->
  List.filter p (columns b) = List.filter p (columns a).
Proof. intros (C & _) Hp. apply C, Hp. Qed.

Ltac assigns_steps :=
  repeat first [ apply assigns_then_set | apply assigns_then_assign ];
  apply assigns_refl.

Lemma row_stress_assigns (data : DataFrame) :
  Spec.assigns ["stress_rate"; "Stress_Score"] data (RiskEngineHelpers.row_stress data).
Proof.
  unfold RiskEngineHelpers.row_stress. destruct (_ && _)%bool; assigns_steps.
Qed.

Lemma row_engagement_assigns (data : DataFrame) :
  Spec.assigns ["engagement_rate"] data (RiskEngineHelpers.row_engagement data).
Proof.
  unfold RiskEngineHelpers.row_engagement.
  destruct (Pandas.has_column _ _); assigns_steps.
Qed.

Lemma row_attrition_assigns (data : DataFrame) :
  Spec.assigns ["Turnover_Risk_Label"; "attrition_rate"] data
    (RiskEngineHelpers.row_attrition data).
Proof.
  unfold RiskEngineHelpers.row_attrition.
  destruct (RiskEngineHelpers.get_col data 1), (RiskEngineHelpers.get_col data 12);
    try assigns_steps;
    apply (assigns_weaken ["attrition_rate"]); try assigns_steps;
    intros c [<- | []]; right; left; reflexivity.
Qed.

Lemma row_temporal_assigns hol tdt (data : DataFrame) :
  Spec.assigns ["year"; "month"; "event_season"; "quarter"] data
    (RiskEngineHelpers.row_temporal hol tdt data).
Proof.
  unfold RiskEngineHelpers.row_temporal.
  destruct (Pandas.has_column data _); cbn [fold_left]; assigns_steps.
Qed.

Lemma loop_assigns {K : Type} (selects : K -> string -> bool) (default : cell)
    (post : cell -> cell) (mapping : list (string * list K)) :
  forall data : DataFrame,
    Spec.assigns (List.map fst mapping) data
      (fold_left (Dimensions.step selects default post) mapping data).
Proof.
  induction mapping as [|[d qs] rest IH]; intros data; [apply assigns_refl|].
  cbn [fold_left List.map fst].
  apply (assigns_trans [d] (List.map fst rest) data
           (Dimensions.step selects default post data (d, qs)) _); [|apply IH].
  unfold Dimensions.step.
  destruct (omap _ qs); apply assigns_set_column.
Qed.

(** ** [calculate_row_metrics] *)

Lemma row_dimensions_loop (df : DataFrame) :
  RiskEngineHelpers.row_dimensions df
  = fold_left (Dimensions.step RiskEngineHelpers.is_question_col NaN
                 (Pandas.lift1 (Num.round 2)))
      RiskEngineHelpers.dimension_map df.
Proof. reflexivity. Qed.

Lemma NoDup_bool {A : Type} `{EqDecision A} (l : list A) :
  bool_decide (NoDup l) = true -> NoDup l.
Proof. apply bool_decide_eq_true_1. Qed.

Lemma after_dimensions_assigns hol tdt (data : DataFrame) :
  Spec.assigns
    ["stress_rate"; "Stress_Score"; "engagement_rate"; "Turnover_Risk_Label";
     "attrition_rate"; "year"; "month"; "event_season"; "quarter"]
    data
    (RiskEngineHelpers.row_temporal hol tdt
       (RiskEngineHelpers.row_attrition
          (RiskEngineHelpers.row_engagement (RiskEngineHelpers.row_stress data)))).
Proof.
  eapply (assigns_trans ["stress_rate"; "Stress_Score"; "engagement_rate";
                         "Turnover_Risk_Label"; "attrition_rate"]
            ["year"; "month"; "event_season"; "quarter"]);
    [|apply row_temporal_assigns].
  eapply (assigns_trans ["stress_rate"; "Stress_Score"; "engagement_rate"]
            ["Turnover_Risk_Label"; "attrition_rate"]);
    [|apply row_attrition_assigns].
  eapply (assigns_trans ["stress_rate"; "Stress_Score"] ["engagement_rate"]);
    [apply row_stress_assigns | apply row_engagement_assigns].
Qed.

Lemma in_dimension_names (dim : string) (q_nums : list N) :
  In (dim, q_nums) RiskEngineHelpers.dimension_map ->
  In dim (List.map fst RiskEngineHelpers.dimension_map).
Proof. intros H. apply (in_map fst) in H. exact H. Qed.

Ltac not_in_names :=
  let H := fresh in
  cbn; intros H;
  repeat (destruct H as [H | H]; [try discriminate H|]); try contradiction.

Lemma row_metrics_dimension hol tdt (df : DataFrame) (i : nat) (r : row)
    (dim : string) (q_nums : list N) :
  rows df !! i = Some r ->
  In (dim, q_nums) RiskEngineHelpers.dimension_map ->
  exists r' : row,
    rows (RiskEngineHelpers.calculate_row_metrics hol tdt df) !! i = Some r' /\
    Pandas.at_ r' dim
    = Dimensions.score RiskEngineHelpers.is_question_col NaN (Pandas.lift1 (Num.round 2))
        df q_nums r.
Proof.
  intros Hr Hin. unfold RiskEngineHelpers.calculate_row_metrics.
  rewrite row_dimensions_loop.
  destruct (loop_rows RiskEngineHelpers.is_question_col NaN (Pandas.lift1 (Num.round 2))
              RiskEngineHelpers.dimension_map df i r Hr) as (r1 & Hr1 & Hdims & _).
  { apply NoDup_bool. vm_compute. reflexivity. }
  { apply (names_apart_spec RiskEngineHelpers.is_question_col). vm_compute. reflexivity. }
  destruct (proj2 (proj2 (after_dimensions_assigns hol tdt _)) i r1 Hr1) as (r' & Hr' & Hoff).
  exists r'. split; [exact Hr'|].
  rewrite <- (Hdims dim q_nums Hin). unfold Pandas.at_. rewrite Hoff; [reflexivity|].
  apply in_dimension_names in Hin. revert Hin. cbn.
  intros Hin; repeat (destruct Hin as [<- | Hin]; [not_in_names|]); destruct Hin.
Qed.

(** The columns of the questions are those of the frame that came in. *)
Lemma row_metrics_get_col (df : DataFrame) (n : N) :
  (forall c, In c (List.map fst RiskEngineHelpers.dimension_map
                   ++ ["stress_rate"; "Stress_Score"; "engagement_rate"]) ->
             RiskEngineHelpers.is_question_col n c = false) ->
  RiskEngineHelpers.get_col
    (RiskEngineHelpers.row_engagement
       (RiskEngineHelpers.row_stress (RiskEngineHelpers.row_dimensions df))) n
  = RiskEngineHelpers.get_col df n.
Proof.
  intros Hn. unfold RiskEngineHelpers.get_col. f_equal.
  apply (assigns_filter _ (List.map fst RiskEngineHelpers.dimension_map
                           ++ ["stress_rate"; "Stress_Score"; "engagement_rate"])); [|exact Hn].
  eapply (assigns_trans _ ["stress_rate"; "Stress_Score"; "engagement_rate"]).
  - exact (loop_assigns RiskEngineHelpers.is_question_col NaN (Pandas.lift1 (Num.round 2))
             RiskEngineHelpers.dimension_map df).
  - eapply (assigns_trans ["stress_rate"; "Stress_Score"] ["engagement_rate"]);
      [apply row_stress_assigns | apply row_engagement_assigns].
Qed.

Lemma selected_not_named (p : string -> bool) (names : list string) (c : string) :
  p c = true -> forallb (fun n => negb (p n)) names = true -> ~ In c names.
Proof.
  intros Hc Hall Hin. rewrite forallb_forall in Hall.
  specialize (Hall c Hin). rewrite Hc in Hall. discriminate.
Qed.

Lemma get_col_selects (df : DataFrame) (n : N) (c : string) :
  RiskEngineHelpers.get_col df n = Some c -> RiskEngineHelpers.is_question_col n c = true.
Proof. exact (find_first_selects RiskEngineHelpers.is_question_col df n c). Qed.

Lemma forallb_false_on (p : string -> bool) (names : list string) :
  forallb (fun n => negb (p n)) names = true -> forall c, In c names -> p c = false.
Proof.
  intros H c Hc. rewrite forallb_forall in H. specialize (H c Hc).
  apply negb_true_iff in H. exact H.
Qed.

Lemma row_metrics_attrition hol tdt (df : DataFrame) (i : nat) (r : row) :
  rows df !! i = Some r ->
  exists r' : row,
    rows (RiskEngineHelpers.calculate_row_metrics hol tdt df) !! i = Some r' /\
    Pandas.at_ r' "attrition_rate"
    = match RiskEngineHelpers.get_col df 1, RiskEngineHelpers.get_col df 12 with
      | Some q1_col, Some q12_col =>
          RiskEngineHelpers.attrition_of (Pandas.at_ r q1_col) (Pandas.at_ r q12_col)
      | _, _ => NaN
      end.
Proof.
  intros Hr. unfold RiskEngineHelpers.calculate_row_metrics.
  set (names := List.map fst RiskEngineHelpers.dimension_map
                ++ ["stress_rate"; "Stress_Score"; "engagement_rate"]).
  set (D := RiskEngineHelpers.row_engagement
              (RiskEngineHelpers.row_stress (RiskEngineHelpers.row_dimensions df))).
  assert (HD : Spec.assigns names df D).
  { eapply (assigns_trans _ ["stress_rate"; "Stress_Score"; "engagement_rate"]).
    - exact (loop_assigns RiskEngineHelpers.is_question_col NaN (Pandas.lift1 (Num.round 2))
               RiskEngineHelpers.dimension_map df).
    - eapply (assigns_trans ["stress_rate"; "Stress_Score"] ["engagement_rate"]);
        [apply row_stress_assigns | apply row_engagement_assigns]. }
  destruct (proj2 (proj2 HD) i r Hr) as (rD & HrD & HoffD).
  assert (H1 : RiskEngineHelpers.get_col D 1 = RiskEngineHelpers.get_col df 1).
  { apply row_metrics_get_col. apply forallb_false_on. vm_compute. reflexivity. }
  assert (H12 : RiskEngineHelpers.get_col D 12 = RiskEngineHelpers.get_col df 12).
  { apply row_metrics_get_col. apply forallb_false_on. vm_compute. reflexivity. }
  assert (Hcell : forall n c, (n = 1%N \/ n = 12%N) ->
            RiskEngineHelpers.get_col df n = Some c -> Pandas.at_ rD c = Pandas.at_ r c).
  { intros n c Hn Hc. unfold Pandas.at_. rewrite HoffD; [reflexivity|].
    apply get_col_selects in Hc.
    apply (selected_not_named _ _ _ Hc).
    destruct Hn as [-> | ->]; vm_compute; reflexivity. }
  assert (HA : exists rA : row,
             rows (RiskEngineHelpers.row_attrition D) !! i = Some rA /\
             Pandas.at_ rA "attrition_rate"
             = match RiskEngineHelpers.get_col df 1, RiskEngineHelpers.get_col df 12 with
               | Some q1_col, Some q12_col =>
                   RiskEngineHelpers.attrition_of (Pandas.at_ r q1_col) (Pandas.at_ r q12_col)
               | _, _ => NaN
               end).
  { unfold RiskEngineHelpers.row_attrition. rewrite H1, H12.
    destruct (RiskEngineHelpers.get_col df 1) as [c1|] eqn:E1;
      [destruct (RiskEngineHelpers.get_col df 12) as [c12|] eqn:E12|].
    - eexists. split.
      + apply set_column_row. apply set_column_row. exact HrD.
      + rewrite at_insert_ne by discriminate. rewrite at_insert_eq.
        rewrite (Hcell 1%N c1), (Hcell 12%N c12); auto.
    - eexists. split; [apply set_column_row; exact HrD | apply at_insert_eq].
    - eexists. split; [apply set_column_row; exact HrD | apply at_insert_eq]. }
  destruct HA as (rA & HrA & HvA).
  destruct (proj2 (proj2 (row_temporal_assigns hol tdt _)) i rA HrA) as (r' & Hr' & Hoff).
  exists r'. split; [exact Hr'|].
  rewrite <- HvA. unfold Pandas.at_. rewrite Hoff; [reflexivity|]. not_in_names.
Qed.

Lemma existsb_filter {A : Type} (p : A -> bool) (l : list A) :
  existsb p l = match List.filter p l with [] => false | _ => true end.
Proof.
  induction l as [|x l IH]; [reflexivity|].
  simpl. destruct (p x); [reflexivity | exact IH].
Qed.

Lemma assigns_has_column (names : list string) (a b : DataFrame) (c : string) :
  Spec.assigns names a b -> ~ In c names ->
  Pandas.has_column b c = Pandas.has_column a c.
Proof.
  intros (C & _) Hc. unfold Pandas.has_column. rewrite !existsb_filter.
  rewrite C; [reflexivity|].
  intros n Hn. apply str_eqb_neq. intros ->. apply Hc, Hn.
Qed.

(** A column that is not assigned holds the same values afterwards. *)
Lemma assigns_column (names : list string) (a b : DataFrame) (c : string) :
  Spec.assigns names a b -> ~ In c names ->
  List.map (fun r => Pandas.at_ r c) (rows b) = List.map (fun r => Pandas.at_ r c) (rows a).
Proof.
  intros (_ & L & H) Hc.
  apply list_eq. intros i.
  change (List.map ?f ?l) with (f <$> l). rewrite !list_lookup_fmap.
  destruct (rows a !! i) as [r|] eqn:E.
  - destruct (H i r E) as (r' & -> & Hoff). simpl. unfold Pandas.at_.
    rewrite (Hoff c Hc). reflexivity.
  - apply lookup_ge_None in E. rewrite <- L in E. apply lookup_ge_None in E.
    rewrite E. reflexivity.
Qed.

Abbreviation before_temporal df :=
  (RiskEngineHelpers.row_attrition
    (RiskEngineHelpers.row_engagement
       (RiskEngineHelpers.row_stress (RiskEngineHelpers.row_dimensions df)))).

Lemma before_temporal_assigns (df : DataFrame) :
  Spec.assigns Spec.metric_names df (before_temporal df).
Proof.
  unfold Spec.metric_names.
  eapply (assigns_trans _ ["stress_rate"; "Stress_Score"; "engagement_rate";
                           "Turnover_Risk_Label"; "attrition_rate"]).
  - exact (loop_assigns RiskEngineHelpers.is_question_col NaN (Pandas.lift1 (Num.round 2))
             RiskEngineHelpers.dimension_map df).
  - eapply (assigns_trans ["stress_rate"; "Stress_Score"; "engagement_rate"]
              ["Turnover_Risk_Label"; "attrition_rate"]); [|apply row_attrition_assigns].
    eapply (assigns_trans ["stress_rate"; "Stress_Score"] ["engagement_rate"]);
      [apply row_stress_assigns | apply row_engagement_assigns].
Qed.

Lemma date_column_cases (df : DataFrame) :
  Spec.date_column df = "submission_date" \/ Spec.date_column df = "Submission_Date".
Proof. unfold Spec.date_column. destruct (Pandas.has_column df _); auto. Qed.

Section Temporal.

Variable holidays_MY : Z -> list (Datetime.date * string).
Variable to_datetime : list cell -> list (option Datetime.datetime).

Lemma row_metrics_temporal (df : DataFrame) (i : nat) (r : row) :
  rows df !! i = Some r ->
  exists r' : row,
    rows (RiskEngineHelpers.calculate_row_metrics holidays_MY to_datetime df) !! i = Some r' /\
    let x := Pandas.at_ r (Spec.date_column df) in
    if Pandas.has_column df (Spec.date_column df) then
      Pandas.at_ r' "quarter"
        = (if Pandas.notna x then RiskEngineHelpers.safe_quarter x else NaN) /\
      Pandas.at_ r' "event_season"
        = (if Pandas.notna x then RiskEngineHelpers.safe_season holidays_MY x
           else Str "normal day") /\
      Pandas.at_ r' "month"
        = match Spec.parsed to_datetime df i with
          | Some dt => Str (Datetime.month_name (Datetime.dt_date dt))
          | None => NaN
          end /\
      Pandas.at_ r' "year"
        = match Spec.parsed to_datetime df i with
          | Some dt => Num (inject_Z (Datetime.year (Datetime.dt_date dt)))
          | None => NaN
          end
    else
      Pandas.at_ r' "quarter" = NaN /\ Pandas.at_ r' "event_season" = NaN /\
      Pandas.at_ r' "month" = NaN /\ Pandas.at_ r' "year" = NaN.
Proof.
  intros Hr.
  unfold RiskEngineHelpers.calculate_row_metrics.
  pose proof (before_temporal_assigns df) as HA.
  destruct (proj2 (proj2 HA) i r Hr) as (rA & HrA & HoffA).
  assert (Hnames : forall c, c = "submission_date" \/ c = "Submission_Date" ->
                             ~ In c Spec.metric_names).
  { intros c [-> | ->]; unfold Spec.metric_names; not_in_names. }
  assert (Hsd : Pandas.has_column (before_temporal df) "submission_date"
                = Pandas.has_column df "submission_date").
  { apply (assigns_has_column _ _ _ _ HA). apply Hnames. auto. }
  unfold RiskEngineHelpers.row_temporal. rewrite Hsd. fold (Spec.date_column df).
  assert (Hdc : Pandas.has_column (before_temporal df) (Spec.date_column df)
                = Pandas.has_column df (Spec.date_column df)).
  { apply (assigns_has_column _ _ _ _ HA). apply Hnames. apply date_column_cases. }
  rewrite Hdc.
  assert (HxA : Pandas.at_ rA (Spec.date_column df) = Pandas.at_ r (Spec.date_column df)).
  { unfold Pandas.at_. rewrite HoffA; [reflexivity|]. apply Hnames, date_column_cases. }
  destruct (Pandas.has_column df (Spec.date_column df)).
  - set (data1 := Pandas.set_column (before_temporal df) "quarter" _).
    set (data2 := Pandas.set_column data1 "event_season" _).
    assert (Hcol : List.map (fun r0 => Pandas.at_ r0 (Spec.date_column df)) (rows data2)
                   = List.map (fun r0 => Pandas.at_ r0 (Spec.date_column df)) (rows df)).
    { apply (assigns_column (Spec.metric_names ++ ["event_season"; "quarter"])).
      - eapply assigns_trans; [exact HA|]. subst data2 data1. assigns_steps.
      - intros Hin. apply in_app_or in Hin as [Hin | Hin].
        + revert Hin. apply Hnames, date_column_cases.
        + destruct (date_column_cases df) as [E | E]; rewrite E in Hin;
            revert Hin; not_in_names. }
    rewrite Hcol.
    eexists. split.
    + apply assign_rows_lookup. apply assign_rows_lookup.
      subst data2. apply set_column_row. subst data1. apply set_column_row. exact HrA.
    + cbn zeta. rewrite !list_lookup_fmap. unfold Spec.parsed.
      destruct (to_datetime _ !! i) as [[dt|]|]; cbn [fmap option_fmap option_map];
        rewrite HxA;
        repeat split;
        repeat first [ rewrite at_insert_eq | rewrite at_insert_ne by discriminate ];
        try reflexivity;
        rewrite at_insert_ne by (destruct (date_column_cases df) as [-> | ->]; discriminate);
        rewrite HxA; reflexivity.
  - cbn [fold_left]. eexists. split.
    + repeat apply set_column_row. exact HrA.
    + cbn zeta. repeat split;
        repeat first [ rewrite at_insert_eq | rewrite at_insert_ne by discriminate ];
        reflexivity.
Qed.

End Temporal.

(** ** [calculate_survey_metrics] *)

Lemma score_agree {K : Type} (selects : K -> string -> bool) (default : cell)
    (post : cell -> cell) (df data : DataFrame) (queries : list K) (r r1 : row) :
  (forall q, In q queries ->
     List.filter (selects q) (columns data) = List.filter (selects q) (columns df)) ->
  (forall q c, In q queries -> selects q c = true -> r1 !! c = r !! c) ->
  Dimensions.score selects default post data queries r1
  = Dimensions.score selects default post df queries r.
Proof.
  intros Hcols Hcells. unfold Dimensions.score.
  assert (E : omap (Dimensions.find_first selects data) queries
              = omap (Dimensions.find_first selects df) queries).
  { apply omap_ext_in. intros q Hq. unfold Dimensions.find_first.
    rewrite (Hcols q Hq). reflexivity. }
  rewrite E.
  destruct (omap (Dimensions.find_first selects df) queries) as [|c cols] eqn:Eo;
    [reflexivity|].
  f_equal. unfold Pandas.row_mean. f_equal.
  apply map_ext_in. intros c' Hc'. rewrite <- Eo in Hc'.
  apply (omap_find_selects selects) in Hc' as (q & Hq & Hsel).
  unfold Pandas.at_. rewrite (Hcells q c' Hq Hsel). reflexivity.
Qed.

Lemma rename_assigns (df : DataFrame) (old new : string) :
  Spec.assigns [old; new] df (RiskEngineHelpers.rename df old new).
Proof.
  split; [|split].
  - intros p Hp. unfold RiskEngineHelpers.rename. simpl.
    assert (Ho : p old = false) by (apply Hp; simpl; auto).
    assert (Hn : p new = false) by (apply Hp; simpl; auto).
    induction (columns df) as [|c cols IH]; [reflexivity|].
    simpl. destruct (Pandas.str_eqb c old) eqn:E.
    + apply str_eqb_eq in E as ->. rewrite Hn, Ho. exact IH.
    + destruct (p c); [f_equal|]; exact IH.
  - unfold RiskEngineHelpers.rename. simpl. apply List.length_map.
  - intros i r Hr. unfold RiskEngineHelpers.rename. simpl.
    change (List.map ?g ?l) with (g <$> l). rewrite list_lookup_fmap, Hr. simpl.
    eexists. split; [reflexivity|].
    intros c Hc. destruct (r !! old) eqn:E; [|reflexivity].
    rewrite lookup_insert_ne by (intros ->; apply Hc; simpl; auto).
    apply lookup_delete_ne. intros ->. apply Hc. simpl. auto.
Qed.


Lemma normalize_assigns (df : DataFrame) :
  Spec.assigns Spec.id_names df (RiskEngineHelpers.normalize_employee_id df).
Proof.
  unfold RiskEngineHelpers.normalize_employee_id. cbv zeta.
  set (d1 := if Pandas.has_column df "mployee_id" then _ else df).
  apply (assigns_weaken (["mployee_id"; "employee_id"] ++ ["Employee_ID"; "employee_id"])).
  { intros c. unfold Spec.id_names. simpl. tauto. }
  apply (assigns_trans _ _ df d1 _).
  - subst d1.
    destruct (Pandas.has_column df "mployee_id"); [apply rename_assigns | apply assigns_refl].
  - destruct (Pandas.has_column d1 "Employee_ID"); [apply rename_assigns | apply assigns_refl].
Qed.

Lemma survey_dimensions_loop (data : DataFrame) :
  RiskEngineHelpers.survey_dimensions data
  = fold_left (Dimensions.step RiskEngineHelpers.survey_matches (Num 0)
                 (Pandas.lift1 (Num.round 2)))
      RiskEngineHelpers.survey_dimension_map data.
Proof. reflexivity. Qed.

Lemma survey_engagement_assigns (data : DataFrame) :
  Spec.assigns ["engagement_rate"] data (RiskEngineHelpers.survey_engagement data).
Proof.
  unfold RiskEngineHelpers.survey_engagement.
  destruct (Pandas.has_column _ _); assigns_steps.
Qed.

Lemma survey_stress_assigns (data : DataFrame) :
  Spec.assigns ["stress_rate"; "Stress_Score"] data (RiskEngineHelpers.survey_stress data).
Proof.
  unfold RiskEngineHelpers.survey_stress. destruct (_ && _)%bool; assigns_steps.
Qed.

Lemma survey_attrition_assigns (data : DataFrame) :
  Spec.assigns ["attrition_rate"] data (RiskEngineHelpers.survey_attrition data).
Proof.
  unfold RiskEngineHelpers.survey_attrition.
  destruct (RiskEngineHelpers.survey_question_col data 1);
    [destruct (RiskEngineHelpers.survey_question_col data 12)|];
    cbn [mbind result_bind try_except]; assigns_steps.
Qed.


Lemma after_survey_dimensions_assigns (data : DataFrame) :
  Spec.assigns Spec.survey_rate_names data
    (RiskEngineHelpers.survey_attrition
       (RiskEngineHelpers.survey_stress (RiskEngineHelpers.survey_engagement data))).
Proof.
  unfold Spec.survey_rate_names.
  eapply (assigns_trans ["engagement_rate"; "stress_rate"; "Stress_Score"] ["attrition_rate"]);
    [|apply survey_attrition_assigns].
  eapply (assigns_trans ["engagement_rate"] ["stress_rate"; "Stress_Score"]);
    [apply survey_engagement_assigns | apply survey_stress_assigns].
Qed.

Lemma survey_metrics_dimension (df : DataFrame) (i : nat) (r : row)
    (dim : string) (queries : list string) :
  rows df !! i = Some r ->
  In (dim, queries) RiskEngineHelpers.survey_dimension_map ->
  exists r' : row,
    rows (RiskEngineHelpers.calculate_survey_metrics df) !! i = Some r' /\
    Pandas.at_ r' dim
    = Dimensions.score RiskEngineHelpers.survey_matches (Num 0) (Pandas.lift1 (Num.round 2))
        df queries r.
Proof.
  intros Hr Hin. unfold RiskEngineHelpers.calculate_survey_metrics.
  pose proof (normalize_assigns df) as (C0 & _ & H0).
  destruct (H0 i r Hr) as (r0 & Hr0 & Hoff0).
  rewrite survey_dimensions_loop.
  destruct (loop_rows RiskEngineHelpers.survey_matches (Num 0) (Pandas.lift1 (Num.round 2))
              RiskEngineHelpers.survey_dimension_map _ i r0 Hr0) as (r1 & Hr1 & Hdims & _).
  { apply NoDup_bool. vm_compute. reflexivity. }
  { apply (names_apart_spec RiskEngineHelpers.survey_matches). vm_compute. reflexivity. }
  destruct (proj2 (proj2 (after_survey_dimensions_assigns _)) i r1 Hr1) as (r' & Hr' & Hoff).
  exists r'. split; [exact Hr'|].
  assert (Hapart : forall q, In q queries ->
            forall n, In n Spec.id_names -> RiskEngineHelpers.survey_matches q n = false).
  { intros q Hq n Hn.
    apply (names_apart_spec RiskEngineHelpers.survey_matches Spec.id_names
             RiskEngineHelpers.survey_dimension_map) with (e := (dim, queries));
      [vm_compute; reflexivity | exact Hn | exact Hin | exact Hq]. }
  rewrite <- (score_agree _ _ _ df (RiskEngineHelpers.normalize_employee_id df) queries r r0).
  - rewrite <- (Hdims dim queries Hin). unfold Pandas.at_. rewrite Hoff; [reflexivity|].
    apply (in_map fst) in Hin. revert Hin. cbn.
    intros Hin; repeat (destruct Hin as [<- | Hin]; [unfold Spec.survey_rate_names; not_in_names|]);
      destruct Hin.
  - intros q Hq. apply C0. apply Hapart, Hq.
  - intros q c Hq Hsel. apply Hoff0. intros Hc.
    rewrite (Hapart q Hq c Hc) in Hsel. discriminate.
Qed.


Lemma before_survey_attrition_assigns (df : DataFrame) :
  Spec.assigns Spec.survey_assigned df
    (RiskEngineHelpers.survey_stress
       (RiskEngineHelpers.survey_engagement
          (RiskEngineHelpers.survey_dimensions (RiskEngineHelpers.normalize_employee_id df)))).
Proof.
  unfold Spec.survey_assigned.
  apply (assigns_trans Spec.id_names _ df (RiskEngineHelpers.normalize_employee_id df) _);
    [apply normalize_assigns|].
  apply (assigns_trans (List.map fst RiskEngineHelpers.survey_dimension_map)
           ["engagement_rate"; "stress_rate"; "Stress_Score"] _
           (RiskEngineHelpers.survey_dimensions (RiskEngineHelpers.normalize_employee_id df)) _).
  - exact (loop_assigns RiskEngineHelpers.survey_matches (Num 0) (Pandas.lift1 (Num.round 2))
             RiskEngineHelpers.survey_dimension_map _).
  - apply (assigns_trans ["engagement_rate"] ["stress_rate"; "Stress_Score"] _
             (RiskEngineHelpers.survey_engagement
                (RiskEngineHelpers.survey_dimensions
                   (RiskEngineHelpers.normalize_employee_id df))) _);
      [apply survey_engagement_assigns | apply survey_stress_assigns].
Qed.

Lemma survey_question_col_selects (data : DataFrame) (n : N) (c : string) :
  RiskEngineHelpers.survey_question_col data n = Ok c ->
  (Text.contains (RiskEngineHelpers.qname n ++ "_")%string c
   || Pandas.str_eqb c (RiskEngineHelpers.qname n))%bool = true.
Proof.
  unfold RiskEngineHelpers.survey_question_col.
  destruct (List.filter _ (columns data)) as [|c' l] eqn:E; [discriminate|].
  intros [= ->].
  assert (Hin : In c (c :: l)) by (left; reflexivity).
  rewrite <- E in Hin. apply List.filter_In in Hin. tauto.
Qed.

Lemma survey_question_col_assigns (names : list string) (a b : DataFrame) (n : N) :
  Spec.assigns names a b ->
  forallb (fun c => negb (Text.contains (RiskEngineHelpers.qname n ++ "_")%string c
                          || Pandas.str_eqb c (RiskEngineHelpers.qname n))) names = true ->
  RiskEngineHelpers.survey_question_col b n = RiskEngineHelpers.survey_question_col a n.
Proof.
  intros H Hn. unfold RiskEngineHelpers.survey_question_col.
  rewrite (assigns_filter _ names a b H); [reflexivity|].
  apply (forallb_false_on _ _ Hn).
Qed.

Lemma survey_metrics_attrition (df : DataFrame) (i : nat) (r : row) :
  rows df !! i = Some r ->
  exists r' : row,
    rows (RiskEngineHelpers.calculate_survey_metrics df) !! i = Some r' /\
    Pandas.at_ r' "attrition_rate"
    = match RiskEngineHelpers.survey_question_col df 1,
            RiskEngineHelpers.survey_question_col df 12 with
      | Ok q1, Ok q12 => RiskEngineHelpers.attrition_of (Pandas.at_ r q1) (Pandas.at_ r q12)
      | _, _ => Num 0
      end.
Proof.
  intros Hr. unfold RiskEngineHelpers.calculate_survey_metrics.
  pose proof (before_survey_attrition_assigns df) as HD.
  set (D := RiskEngineHelpers.survey_stress _) in *.
  destruct (proj2 (proj2 HD) i r Hr) as (rD & HrD & HoffD).
  assert (H1 : RiskEngineHelpers.survey_question_col D 1
               = RiskEngineHelpers.survey_question_col df 1).
  { apply (survey_question_col_assigns _ _ _ _ HD). vm_compute. reflexivity. }
  assert (H12 : RiskEngineHelpers.survey_question_col D 12
                = RiskEngineHelpers.survey_question_col df 12).
  { apply (survey_question_col_assigns _ _ _ _ HD). vm_compute. reflexivity. }
  assert (Hcell : forall n c, (n = 1%N \/ n = 12%N) ->
            RiskEngineHelpers.survey_question_col df n = Ok c ->
            Pandas.at_ rD c = Pandas.at_ r c).
  { intros n c Hn Hc. unfold Pandas.at_. rewrite HoffD; [reflexivity|].
    apply survey_question_col_selects in Hc.
    apply (selected_not_named
             (fun c => (Text.contains (RiskEngineHelpers.qname n ++ "_")%string c
                        || Pandas.str_eqb c (RiskEngineHelpers.qname n))%bool) _ _ Hc).
    destruct Hn as [-> | ->]; vm_compute; reflexivity. }
  unfold RiskEngineHelpers.survey_attrition. rewrite H1, H12.
  destruct (RiskEngineHelpers.survey_question_col df 1) as [c1|] eqn:E1;
    [destruct (RiskEngineHelpers.survey_question_col df 12) as [c12|] eqn:E12|];
    cbn [mbind result_bind try_except];
    (eexists; split; [apply set_column_row; exact HrD|]); rewrite at_insert_eq;
    [|reflexivity|reflexivity].
  rewrite (Hcell 1%N c1), (Hcell 12%N c12); auto.
Qed.

(** ** [calculate_dimensions] *)

Lemma calculate_dimensions_loop (df : DataFrame) :
  Upload.calculate_dimensions df
  = fold_left (Dimensions.step Upload.matches (Num 0) (fun v => v)) Upload.DIMENSION_MAPPING df.
Proof. reflexivity. Qed.

Lemma upload_dimension (df : DataFrame) (i : nat) (r : row)
    (dim : string) (cols : list string) :
  rows df !! i = Some r ->
  In (dim, cols) Upload.DIMENSION_MAPPING ->
  exists r' : row,
    rows (Upload.calculate_dimensions df) !! i = Some r' /\
    Pandas.at_ r' dim = Dimensions.score Upload.matches (Num 0) (fun v => v) df cols r.
Proof.
  intros Hr Hin. rewrite calculate_dimensions_loop.
  destruct (loop_rows Upload.matches (Num 0) (fun v => v)
              Upload.DIMENSION_MAPPING df i r Hr) as (r1 & Hr1 & Hdims & _).
  { apply NoDup_bool. vm_compute. reflexivity. }
  { apply (names_apart_spec Upload.matches). vm_compute. reflexivity. }
  exists r1. split; [exact Hr1 | apply Hdims, Hin].
Qed.

(** ** The three call sites against the specification *)

Lemma cell_at_row (df : DataFrame) (i : nat) (r : row) (c : string) (v : cell) :
  rows df !! i = Some r -> Pandas.at_ r c = v -> Spec.cell_at df i c = Some v.
Proof. intros H <-. unfold Spec.cell_at. rewrite H. reflexivity. Qed.

Lemma get_col_question_column (df : DataFrame) (n : N) :
  RiskEngineHelpers.get_col df n = Spec.question_column df n.
Proof.
  unfold RiskEngineHelpers.get_col, Spec.question_column. f_equal.
  apply List.filter_ext. intros c.
  unfold RiskEngineHelpers.is_question_col, Spec.carries_question. apply orb_comm.
Qed.

Lemma lift1_round_mean (d : nat) (vs : list cell) :
  Pandas.lift1 (Num.round d) (Pandas.mean vs) = Spec.rounded d (Pandas.mean vs).
Proof. unfold Pandas.mean. destruct (omap Pandas.num_of vs); reflexivity. Qed.

Lemma score_nonempty {K : Type} (selects : K -> string -> bool) (default : cell)
    (post : cell -> cell) (df : DataFrame) (queries : list K) (r : row) (cols : list string) :
  omap (Dimensions.find_first selects df) queries = cols ->
  cols <> [] ->
  Dimensions.score selects default post df queries r = post (Pandas.row_mean cols r).
Proof.
  intros E Hne. unfold Dimensions.score. rewrite E.
  destruct cols; [contradiction | reflexivity].
Qed.

Lemma omap_renumber {A : Type} (f : string -> option A) (g : N -> option A)
    (qs : list string) :
  (forall q, In q qs -> exists n, Spec.question_number q = Some n /\ f q = g n) ->
  omap f qs = omap g (omap Spec.question_number qs).
Proof.
  induction qs as [|q qs IH]; intros H; [reflexivity|].
  destruct (H q) as (n & Hn & Hf); [left; reflexivity|].
  cbn. rewrite Hn. cbn. rewrite Hf, IH; [reflexivity|].
  intros q' Hq'. apply H. right. exact Hq'.
Qed.

Lemma well_numbered_spec (mapping : list (string * list string)) :
  Spec.well_numbered mapping = true ->
  forall dim queries q, In (dim, queries) mapping -> In q queries ->
    exists n, Spec.question_number q = Some n /\
              Text.before_underscore q = RiskEngineHelpers.qname n.
Proof.
  unfold Spec.well_numbered. intros H dim queries q He Hq.
  rewrite forallb_forall in H. specialize (H _ He).
  rewrite forallb_forall in H. specialize (H _ Hq).
  destruct (Spec.question_number q) as [n|]; [|discriminate].
  exists n. split; [reflexivity|]. apply String.eqb_eq. exact H.
Qed.

Lemma attrition_of_formula (q1 q12 : cell) :
  RiskEngineHelpers.attrition_of q1 q12
  = match q1, q12 with
    | Num a, Num b => Num (Spec.attrition_formula a b)
    | _, _ => NaN
    end.
Proof. destruct q1, q12; reflexivity. Qed.







(** ** Temporal fields *)

Lemma safe_quarter_invalid (x : cell) :
  Spec.valid_submission_date x = false -> RiskEngineHelpers.safe_quarter x = NaN.
Proof.
  destruct x as [| |s|]; try reflexivity.
  unfold Spec.valid_submission_date, RiskEngineHelpers.safe_quarter, Quarter.get_quarter.
  destruct (Datetime.strptime s); [discriminate | reflexivity].
Qed.

Lemma safe_season_invalid hol (x : cell) :
  Spec.valid_submission_date x = false ->
  RiskEngineHelpers.safe_season hol x = Str "normal day".
Proof.
  destruct x as [| |s|]; try reflexivity.
  unfold Spec.valid_submission_date, RiskEngineHelpers.safe_season,
    SeasonDetect.classify_festival_date.
  destruct (Datetime.strptime s); [discriminate | reflexivity].
Qed.

(** The claim of C7 fails on [event_season]: a record whose date is no date
    gets the label "normal day", not null. *)
Lemma event_season_of_invalid_date :
  Spec.valid_submission_date (Str "not-a-date") = false /\
  Spec.cell_at (RiskEngineHelpers.calculate_row_metrics Sample.no_holidays
                  Sample.parse_nothing Sample.bad_date_frame) 0 "event_season"
    = Some (Str "normal day") /\
  Spec.cell_at (RiskEngineHelpers.calculate_row_metrics Sample.no_holidays
                  Sample.parse_nothing Sample.bad_date_frame) 0 "event_season"
    <> Some NaN.
Proof.
  split; [reflexivity|].
  assert (E : Spec.cell_at (RiskEngineHelpers.calculate_row_metrics Sample.no_holidays
                  Sample.parse_nothing Sample.bad_date_frame) 0 "event_season"
              = Some (Str "normal day")) by (vm_compute; reflexivity).
  split; [exact E | rewrite E; discriminate].
Qed.

(** C7, amended.  For every record whose submission date is not one that
    [strptime(_, "%Y-%m-%d")] accepts, [calculate_row_metrics] leaves
    [quarter] null and sets [event_season] to the text "normal day"; [month]
    and [year] are what [pd.to_datetime] makes of the value, null when it
    yields no date.  Without a date column the four fields are all null. *)
Theorem temporal_fields_of_invalid_date
    (holidays_MY : Z -> list (Datetime.date * string))
    (to_datetime : list cell -> list (option Datetime.datetime))
    (df : DataFrame) (i : nat) (r : row) :
  rows df !! i = Some r ->
  Spec.valid_submission_date (Pandas.at_ r (Spec.date_column df)) = false ->
  let out := RiskEngineHelpers.calculate_row_metrics holidays_MY to_datetime df in
  if Pandas.has_column df (Spec.date_column df) then
    Spec.cell_at out i "quarter" = Some NaN /\
    Spec.cell_at out i "event_season" = Some (Str "normal day") /\
    Spec.cell_at out i "month"
      = Some match Spec.parsed to_datetime df i with
             | Some dt => Str (Datetime.month_name (Datetime.dt_date dt))
             | None => NaN
             end /\
    Spec.cell_at out i "year"
      = Some match Spec.parsed to_datetime df i with
             | Some dt => Num (inject_Z (Datetime.year (Datetime.dt_date dt)))
             | None => NaN
             end
  else
    Spec.cell_at out i "quarter" = Some NaN /\
    Spec.cell_at out i "event_season" = Some NaN /\
    Spec.cell_at out i "month" = Some NaN /\
    Spec.cell_at out i "year" = Some NaN.
Proof.
  intros Hr Hinvalid out. subst out.
  destruct (row_metrics_temporal holidays_MY to_datetime df i r Hr) as (r' & Hr' & Hv).
  cbn zeta in Hv.
  destruct (Pandas.has_column df (Spec.date_column df)).
  - destruct Hv as (Hq & Hs & Hm & Hy).
    rewrite (safe_quarter_invalid _ Hinvalid) in Hq.
    rewrite (safe_season_invalid _ _ Hinvalid) in Hs.
    repeat split; apply (cell_at_row _ _ r'); try exact Hr'; try assumption.
    + rewrite Hq. destruct (Pandas.notna _); reflexivity.
    + rewrite Hs. destruct (Pandas.notna _); reflexivity.
  - destruct Hv as (Hq & Hs & Hm & Hy).
    repeat split; apply (cell_at_row _ _ r'); assumption.
Qed.

(** The record dated "not-a-date". *)
Lemma temporal_fields_of_invalid_date_witness :
  Spec.cell_at (RiskEngineHelpers.calculate_row_metrics Sample.no_holidays
                  Sample.parse_nothing Sample.bad_date_frame) 0 "quarter" = Some NaN.
Proof.
  exact (proj1 (temporal_fields_of_invalid_date Sample.no_holidays Sample.parse_nothing
                  Sample.bad_date_frame 0
                  Sample.bad_date_row eq_refl eq_refl)).
Defined.

(** ** Festival seasons ([season_detect.py]) *)

Lemma days_in_month_pos (y m : Z) : 28 <= Datetime.days_in_month y m.
Proof.
  unfold Datetime.days_in_month.
  destruct (m =? 2); [destruct (Datetime.is_leap y); lia|].
  destruct (_ || _)%bool; lia.
Qed.

Lemma days_before_month_nonneg (y m : Z) : 0 <= Datetime.days_before_month y m.
Proof.
  unfold Datetime.days_before_month.
  induction (Z.to_nat (m - 1)) as [|k IH]; [reflexivity|].
  cbn [Datetime.days_before_month_aux].
  pose proof (days_in_month_pos y (Z.of_nat (S k))). lia.
Qed.

(** A valid date lies after the last day of the year before. *)
Lemma toordinal_lower (d : Datetime.date) :
  Datetime.valid_date d = true ->
  Datetime.days_before_year (Datetime.year d) < Datetime.toordinal d.
Proof.
  unfold Datetime.valid_date, Datetime.toordinal. intros H.
  repeat (apply andb_prop in H as [H ?]).
  pose proof (days_before_month_nonneg (Datetime.year d) (Datetime.month d)). lia.
Qed.

(** What one holiday contributes, by the day difference. *)
Lemma classify_one_rule (input_date holiday_date : Datetime.date) (name : string) :
  let days_diff := Datetime.days_between input_date holiday_date in
  SeasonDetect.classify_one input_date (holiday_date, name)
  = if days_diff =? 0 then ["festival: " ++ name]%string
    else if (-15 <=? days_diff) && (days_diff <=? -1) then ["pre-festival: " ++ name]%string
    else if (1 <=? days_diff) && (days_diff <=? 15) then ["post-festival: " ++ name]%string
    else [].
Proof.
  cbn zeta. unfold SeasonDetect.classify_one.
  set (x := Datetime.days_between input_date holiday_date).
  destruct (x =? 0) eqn:E0; [reflexivity|].
  replace (x <? 0) with (x <=? -1) by (destruct (Z.leb_spec x (-1)), (Z.ltb_spec x 0); lia).
  replace (0 <? x) with (1 <=? x) by (destruct (Z.leb_spec 1 x), (Z.ltb_spec 0 x); lia).
  reflexivity.
Qed.

Lemma classify_one_far (input_date holiday_date : Datetime.date) (name : string) :
  Datetime.days_between input_date holiday_date < -15 ->
  SeasonDetect.classify_one input_date (holiday_date, name) = [].
Proof.
  intros H. rewrite classify_one_rule. cbn zeta.
  destruct (Z.eqb_spec (Datetime.days_between input_date holiday_date) 0); [lia|].
  destruct (Z.leb_spec (-15) (Datetime.days_between input_date holiday_date)); [lia|].
  destruct (Z.leb_spec 1 (Datetime.days_between input_date holiday_date)); [lia|].
  reflexivity.
Qed.

Lemma flat_map_nil {A B : Type} (f : A -> list B) (l : list A) :
  (forall x, In x l -> f x = []) -> flat_map f l = [].
Proof.
  induction l as [|x l IH]; intros H; [reflexivity|].
  simpl. rewrite (H x) by (left; reflexivity). apply IH.
  intros y Hy. apply H. right. exact Hy.
Qed.

(** With the holidays of the date's own year the labels follow the rule of
    the specification: all holidays within fifteen days, else "normal day". *)
Lemma classify_festival_date_own_year (holidays_MY : Z -> list (Datetime.date * string))
    (input_date : string) (d : Datetime.date) :
  Datetime.strptime input_date = Some d ->
  let found := flat_map (SeasonDetect.classify_one d) (holidays_MY (Datetime.year d)) in
  SeasonDetect.classify_festival_date holidays_MY input_date (Datetime.year d)
  = Ok (match found with [] => ["normal day"] | _ => found end).
Proof. intros H. unfold SeasonDetect.classify_festival_date. rewrite H. reflexivity. Qed.

(** C8 at a failing input.  A record dated 2024-12-25, a public holiday of
    its own year: [calculate_row_metrics] calls [classify_festival_date]
    without the year, so the holidays of 2026 are consulted and the record is
    a "normal day", while the holidays of 2024 make it a festival. *)
Theorem event_season_ignores_own_year
    (holidays_MY : Z -> list (Datetime.date * string))
    (to_datetime : list cell -> list (option Datetime.datetime))
    (name : string) :
  (forall d n, In (d, n) (holidays_MY 2026) ->
               Datetime.valid_date d = true /\ Datetime.year d = 2026) ->
  In (Datetime.mkdate 2024 12 25, name) (holidays_MY 2024) ->
  Spec.cell_at (RiskEngineHelpers.calculate_row_metrics holidays_MY to_datetime
                  Sample.christmas_frame) 0 "event_season"
    = Some (Str "normal day") /\
  exists labels,
    SeasonDetect.classify_festival_date holidays_MY "2024-12-25" 2024 = Ok labels /\
    In ("festival: " ++ name)%string labels.
Proof.
  intros H2026 H2024.
  assert (Hparse : Datetime.strptime "2024-12-25" = Some (Datetime.mkdate 2024 12 25))
    by reflexivity.
  split.
  - destruct (row_metrics_temporal holidays_MY to_datetime Sample.christmas_frame 0
                Sample.christmas_row eq_refl) as (r' & Hr' & Hv).
    cbn zeta in Hv.
    change (Pandas.has_column Sample.christmas_frame (Spec.date_column Sample.christmas_frame))
      with true in Hv.
    change (Pandas.at_ Sample.christmas_row (Spec.date_column Sample.christmas_frame))
      with (Str "2024-12-25") in Hv.
    destruct Hv as (_ & Hs & _).
    apply (cell_at_row _ _ r'); [exact Hr'|]. rewrite Hs.
    cbn [Pandas.notna]. unfold RiskEngineHelpers.safe_season,
      SeasonDetect.classify_festival_date. rewrite Hparse.
    rewrite flat_map_nil; [reflexivity|].
    intros [h n] Hh. apply classify_one_far.
    destruct (H2026 h n Hh) as [Hvalid Hyear].
    pose proof (toordinal_lower h Hvalid) as Hlow. rewrite Hyear in Hlow.
    unfold Datetime.days_between, SeasonDetect.default_year in *.
    change (Datetime.toordinal (Datetime.mkdate 2024 12 25)) with 739245.
    change (Datetime.days_before_year 2026) with 739616 in Hlow. lia.
  - unfold SeasonDetect.classify_festival_date. rewrite Hparse.
    assert (Hin : In ("festival: " ++ name)%string
                    (flat_map (SeasonDetect.classify_one (Datetime.mkdate 2024 12 25))
                       (holidays_MY 2024))).
    { apply in_flat_map. exists (Datetime.mkdate 2024 12 25, name).
      split; [exact H2024|]. rewrite classify_one_rule. cbn zeta.
      unfold Datetime.days_between. rewrite Z.sub_diag. left. reflexivity. }
    eexists. split; [reflexivity|].
    destruct (flat_map _ _); [destruct Hin | exact Hin].
Qed.

(** Christmas Day as the only holiday of each year. *)
Lemma event_season_ignores_own_year_witness :
  Spec.cell_at (RiskEngineHelpers.calculate_row_metrics Sample.christmas_only
                  Sample.parse_nothing Sample.christmas_frame) 0 "event_season"
    = Some (Str "normal day") /\
  exists labels,
    SeasonDetect.classify_festival_date Sample.christmas_only "2024-12-25" 2024 = Ok labels /\
    In "festival: Christmas Day" labels.
Proof.
  apply (event_season_ignores_own_year Sample.christmas_only Sample.parse_nothing
           "Christmas Day").
  - intros d n [[= <- <-] | []]. split; reflexivity.
  - left. reflexivity.
Defined.

(** ** The department sync ([upload.py]) *)


Lemma or_zero_eq (x : option Q) :
  (Upload.or_zero x == match x with Some q => q | None => 0 end)%Q.
Proof.
  destruct x as [q|]; simpl; [|reflexivity].
  destruct (Qeq_bool q 0) eqn:E; [|reflexivity].
  apply Qeq_bool_iff in E. symmetry. exact E.
Qed.

Lemma Qltb_comp (a b c d : Q) : (a == c)%Q -> (b == d)%Q -> Num.Qltb a b = Num.Qltb c d.
Proof.
  intros H1 H2. destruct (Num.Qltb a b) eqn:E1, (Num.Qltb c d) eqn:E2; try reflexivity.
  - apply Qltb_lt in E1. apply Qltb_ge in E2. rewrite H1, H2 in E1. lra.
  - apply Qltb_ge in E1. apply Qltb_lt in E2. rewrite H1, H2 in E1. lra.
Qed.


Lemma calculate_overall_risk_spec (engagement attrition stress : option Q) :
  let e := Spec.opt0 engagement in
  let a := Spec.opt0 attrition in
  let s := Spec.opt0 stress in
  let risk := Upload.calculate_overall_risk engagement attrition stress in
  (risk = "critical" <-> (e < 55 \/ 50 < s \/ 50 < a)%Q) /\
  (risk = "warning" <->
     ~ (e < 55 \/ 50 < s \/ 50 < a)%Q /\ (e < 65 \/ 35 < s \/ 35 < a)%Q) /\
  (risk = "healthy" <-> (65 <= e /\ s <= 35 /\ a <= 35)%Q) /\
  (risk = "critical" \/ risk = "warning" \/ risk = "healthy") /\
  risk <> "watch".
Proof.
  intros e a s risk. subst risk. unfold Upload.calculate_overall_risk.
  rewrite (Qltb_comp (Upload.or_zero engagement) 55 e 55),
          (Qltb_comp (Upload.or_zero engagement) 65 e 65),
          (Qltb_comp 50 (Upload.or_zero stress) 50 s),
          (Qltb_comp 35 (Upload.or_zero stress) 35 s),
          (Qltb_comp 50 (Upload.or_zero attrition) 50 a),
          (Qltb_comp 35 (Upload.or_zero attrition) 35 a)
    by (try apply or_zero_eq; reflexivity).
  destruct (Num.Qltb e 55) eqn:E1; [apply Qltb_lt in E1 | apply Qltb_ge in E1];
  destruct (Num.Qltb 50 s) eqn:E2; [apply Qltb_lt in E2 | apply Qltb_ge in E2 | apply Qltb_lt in E2 | apply Qltb_ge in E2];
  destruct (Num.Qltb 50 a) eqn:E3; try (apply Qltb_lt in E3); try (apply Qltb_ge in E3);
  destruct (Num.Qltb e 65) eqn:E4; try (apply Qltb_lt in E4); try (apply Qltb_ge in E4);
  destruct (Num.Qltb 35 s) eqn:E5; try (apply Qltb_lt in E5); try (apply Qltb_ge in E5);
  destruct (Num.Qltb 35 a) eqn:E6; try (apply Qltb_lt in E6); try (apply Qltb_ge in E6);
  simpl; repeat split; intros; try discriminate; try tauto;
  repeat match goal with
         | H : _ /\ _ |- _ => destruct H
         | H : _ \/ _ |- _ => destruct H
         | H : ~ _ |- _ => exfalso; apply H; clear H
         end; try lra; auto.
Qed.

Lemma distinct_In (seen vs : list cell) (k : cell) :
  In k (Pandas.distinct seen vs) -> In k vs /\ Pandas.isna k = false.
Proof.
  revert seen. induction vs as [|v vs IH]; intros seen; simpl; [tauto|].
  destruct (Pandas.isna v || existsb (Pandas.cell_eqb v) seen)%bool eqn:E.
  - intros H. apply IH in H. tauto.
  - intros [<- | H].
    + apply orb_false_iff in E. tauto.
    + apply IH in H. tauto.
Qed.

Lemma dept_stats_rows (df : DataFrame) (dept_col : string) (stats : list row) (r : row) :
  Upload.dept_stats df dept_col = Ok stats ->
  In r stats ->
  exists k,
    let group := List.filter (fun x => Pandas.cell_eqb (Pandas.at_ x dept_col) k) (rows df) in
    In k (List.map (fun x => Pandas.at_ x dept_col) (rows df)) /\
    Pandas.at_ r "engagement_rate" = Pandas.mean (List.map (fun x => Pandas.at_ x "engagement_rate") group) /\
    Pandas.at_ r "attrition_rate" = Pandas.mean (List.map (fun x => Pandas.at_ x "attrition_rate") group) /\
    Pandas.at_ r "burnout_rate" = Pandas.mean (List.map (fun x => Pandas.at_ x "burnout_rate") group).
Proof.
  unfold Upload.dept_stats.
  destruct (List.filter _ Upload.agg_columns); intros H; [|discriminate].
  injection H as <-. intros Hin. apply in_map_iff in Hin as (k & <- & Hk).
  exists k. split.
  - apply distinct_In in Hk. tauto.
  - cbn [Upload.agg_columns Upload.DIMENSION_MAPPING List.map fst app fold_left].
    unfold Pandas.at_.
    repeat split; rewrite !lookup_insert_ne by done; rewrite lookup_insert_eq; reflexivity.
Qed.

Lemma department_update_lookup (timestamp : string) (stats : row) :
  let u := Upload.department_update timestamp stats in
  let eng := Upload.safe_decimal (Pandas.at_ stats "engagement_rate") in
  let att := Upload.safe_decimal (Pandas.at_ stats "attrition_rate") in
  let stress := Upload.safe_decimal (Pandas.at_ stats "burnout_rate") in
  u !! "engagement_rate" = Some (Pandas.of_opt eng) /\
  u !! "attrition_rate" = Some (Pandas.of_opt att) /\
  u !! "stress_rate" = Some (Pandas.of_opt stress) /\
  u !! "overall_risk" = Some (Str (Upload.calculate_overall_risk eng att stress)).
Proof.
  cbn zeta. unfold Upload.department_update.
  cbn [Upload.DIMENSION_MAPPING List.map fst fold_left].
  repeat split; rewrite !lookup_insert_ne by done; rewrite lookup_insert_eq; reflexivity.
Qed.

Lemma stored_rate_of_opt (u : gmap string cell) (k : string) (x : option Q) :
  u !! k = Some (Pandas.of_opt x) -> Spec.stored_rate u k = Spec.opt0 x.
Proof. unfold Spec.stored_rate. intros ->. destruct x; reflexivity. Qed.



(** ** Quarterly trend ([metrics.py]) *)

Lemma filter_filter {A : Type} (p q : A -> bool) (l : list A) :
  List.filter q (List.filter p l) = List.filter (fun x => (p x && q x)%bool) l.
Proof.
  induction l as [|x l IH]; [reflexivity|].
  simpl. destruct (p x); simpl; [destruct (q x); rewrite IH; reflexivity | exact IH].
Qed.

Lemma where_ok (df : DataFrame) (c : string) (test : cell -> bool) :
  Pandas.has_column df c = true ->
  RiskEngine.where_ df c test = Ok (Pandas.select df (fun r => test (Pandas.at_ r c))).
Proof. intros H. unfold RiskEngine.where_. rewrite H. reflexivity. Qed.

Lemma where_inv (df out : DataFrame) (c : string) (test : cell -> bool) :
  RiskEngine.where_ df c test = Ok out ->
  Pandas.has_column df c = true /\ out = Pandas.select df (fun r => test (Pandas.at_ r c)).
Proof.
  unfold RiskEngine.where_. destruct (Pandas.has_column df c); [|discriminate].
  intros [= <-]. auto.
Qed.

Lemma empty_select (df : DataFrame) (mask : row -> bool) (c : string) :
  Pandas.has_column df c = true ->
  Pandas.empty (Pandas.select df mask)
  = match List.filter mask (rows df) with [] => true | _ => false end.
Proof.
  intros H. unfold Pandas.empty, Pandas.select. simpl.
  destruct (List.filter mask (rows df)); [reflexivity|].
  unfold Pandas.has_column in H. destruct (columns df); [discriminate | reflexivity].
Qed.

Lemma empty_quarter_fields (department : option string) (q : string) (year : Z) :
  let res := Metrics.empty_quarter department q year in
  res !! "Quarter" = Some (Metrics.PyStr q) /\
  res !! "Response_Count" = Some (Metrics.PyInt 0) /\
  res !! "Burnout_Rate" = Some Metrics.PyNone /\
  res !! "Turnover_Risk" = Some Metrics.PyNone /\
  res !! "eNPS" = Some Metrics.PyNone /\
  res !! "Overall_Engagement" = Some Metrics.PyNone.
Proof.
  cbn zeta. unfold Metrics.empty_quarter.
  repeat split; rewrite ?lookup_insert_ne by done; apply lookup_insert_eq.
Qed.

Lemma aggregate_quarter (df : DataFrame) (name : string) (year : Z) (q : string) :
  Metrics.aggregate_dataframe df name year q !! "Quarter" = Some (Metrics.PyStr q).
Proof.
  unfold Metrics.aggregate_dataframe.
  rewrite lookup_insert_ne by done. apply lookup_insert_eq.
Qed.

Lemma mapM_ok {A B : Type} (f : A -> result B) (g : A -> B) (l : list A) :
  (forall x, In x l -> f x = Ok (g x)) -> mapM f l = Ok (List.map g l).
Proof.
  induction l as [|x l IH]; intros H; [reflexivity|].
  cbn [mapM List.map]. rewrite (H x) by (left; reflexivity).
  cbn [mbind result_bind]. rewrite IH by (intros y Hy; apply H; right; exact Hy).
  reflexivity.
Qed.

(** The entry the loop appends for one quarter. *)
Lemma quarter_entry (d : DataFrame) (department : option string) (year : Z) (q : string) :
  Pandas.has_column d "Quarter" = true ->
  (q_df ← Metrics.by_quarter d q;
   if Pandas.empty q_df then Ok (Metrics.empty_quarter department q year)
   else Ok (Metrics.aggregate_dataframe q_df
              (match department with Some x => x | None => "All" end) year q))
  = Ok (match List.filter (fun r => Pandas.str_upper_eq (Pandas.at_ r "Quarter")
                                      (Pandas.upper q)) (rows d) with
        | [] => Metrics.empty_quarter department q year
        | _ => Metrics.aggregate_dataframe
                 (Pandas.select d (fun r => Pandas.str_upper_eq (Pandas.at_ r "Quarter")
                                              (Pandas.upper q)))
                 (match department with Some x => x | None => "All" end) year q
        end).
Proof.
  intros H. unfold Metrics.by_quarter. rewrite (where_ok _ _ _ H).
  cbn [mbind result_bind]. rewrite (empty_select _ _ "Quarter" H).
  destruct (List.filter _ (rows d)); reflexivity.
Qed.

(** C4. With [group_by = "quarter"], on a frame that has the columns it
    reads, [filter_metrics] returns exactly four entries, for Q1, Q2, Q3 and
    Q4 in this order; the entry of a quarter without rows of the year and
    department asked for has [Response_Count = 0] and [None] in every rate
    field. *)
Theorem filter_metrics_by_quarter
    (current_year : Z) (df : DataFrame) (department quarter : option string)
    (year : option Z) :
  Pandas.has_column df "Quarter" = true ->
  (RiskEngine.truthy_str department <> None -> Pandas.has_column df "Department" = true) ->
  exists results : list (gmap string Metrics.pyval),
    Metrics.filter_metrics current_year df department quarter year (Some "quarter")
      = Ok results /\
    length results = 4%nat /\
    forall (i : nat) (q : string),
      Metrics.quarters !! i = Some q ->
      exists res : gmap string Metrics.pyval,
        results !! i = Some res /\
        res !! "Quarter" = Some (Metrics.PyStr q) /\
        (Spec.quarter_rows current_year df department year q = [] ->
         res !! "Response_Count" = Some (Metrics.PyInt 0) /\
         res !! "Burnout_Rate" = Some Metrics.PyNone /\
         res !! "Turnover_Risk" = Some Metrics.PyNone /\
         res !! "eNPS" = Some Metrics.PyNone /\
         res !! "Overall_Engagement" = Some Metrics.PyNone).
Proof.
  intros HQ HD. unfold Metrics.filter_metrics, Spec.quarter_rows.
  set (y := match year with Some y => y | None => current_year end).
  set (year_ok := fun r : row => Pandas.cell_eqb (Pandas.at_ r "Year") (Num (inject_Z y))).
  set (df1 := if Pandas.has_column df "Year" then Pandas.select df year_ok else df).
  assert (Hcols : columns df1 = columns df).
  { subst df1. destruct (Pandas.has_column df "Year"); reflexivity. }
  assert (Hrows1 : rows df1
                   = List.filter (fun r => if Pandas.has_column df "Year" then year_ok r else true)
                       (rows df)).
  { subst df1. destruct (Pandas.has_column df "Year"); [reflexivity|].
    simpl. induction (rows df) as [|x l IH]; [reflexivity|]. simpl. rewrite <- IH. reflexivity. }
  set (dept_ok := fun r : row =>
         match RiskEngine.truthy_str department with
         | Some d => Pandas.str_lower_eq (Pandas.at_ r "Department") (Pandas.lower d)
         | None => true
         end).
  set (df2 := match RiskEngine.truthy_str department with
              | Some d => Pandas.select df1 (fun r =>
                            Pandas.str_lower_eq (Pandas.at_ r "Department") (Pandas.lower d))
              | None => df1
              end).
  assert (Hdept : match RiskEngine.truthy_str department with
                  | Some d => Metrics.by_department df1 d
                  | None => Ok df1
                  end = Ok df2).
  { subst df2. destruct (RiskEngine.truthy_str department) as [d|]; [|reflexivity].
    unfold Metrics.by_department. apply where_ok.
    unfold Pandas.has_column. rewrite Hcols. apply HD. discriminate. }
  assert (HQ2 : Pandas.has_column df2 "Quarter" = true).
  { subst df2. unfold Pandas.has_column.
    destruct (RiskEngine.truthy_str department); simpl; rewrite Hcols; exact HQ. }
  assert (Hrows2 : rows df2
                   = List.filter (fun r => ((if Pandas.has_column df "Year" then year_ok r
                                             else true) && dept_ok r)%bool) (rows df)).
  { subst df2 dept_ok. destruct (RiskEngine.truthy_str department) as [d|].
    - simpl. rewrite Hrows1. apply filter_filter.
    - rewrite Hrows1. apply List.filter_ext. intros r. rewrite andb_true_r. reflexivity. }
  rewrite Hdept. cbn [mbind result_bind].
  erewrite mapM_ok by (intros q _; apply quarter_entry; exact HQ2).
  eexists. split; [reflexivity|]. split; [reflexivity|].
  intros i q Hq.
  change (List.map ?g ?l) with (g <$> l). rewrite list_lookup_fmap, Hq.
  eexists. split; [reflexivity|]. split.
  - destruct (List.filter _ (rows df2)); [apply empty_quarter_fields | apply aggregate_quarter].
  - intros Hnone.
    assert (E : List.filter (fun r => Pandas.str_upper_eq (Pandas.at_ r "Quarter")
                                        (Pandas.upper q)) (rows df2) = []).
    { rewrite Hrows2, filter_filter. exact Hnone. }
    rewrite E. apply empty_quarter_fields.
Qed.

(** The trend of 2024 for a frame without rows for Q3. *)
Lemma filter_metrics_by_quarter_witness :
  exists (results : list (gmap string Metrics.pyval)) (q3 : gmap string Metrics.pyval),
    Metrics.filter_metrics 2025 Sample.trend_frame None None (Some 2024) (Some "quarter")
      = Ok results /\
    length results = 4%nat /\
    results !! 2%nat = Some q3 /\
    q3 !! "Quarter" = Some (Metrics.PyStr "Q3") /\
    q3 !! "Response_Count" = Some (Metrics.PyInt 0) /\
    q3 !! "Burnout_Rate" = Some Metrics.PyNone.
Proof.
  destruct (filter_metrics_by_quarter 2025 Sample.trend_frame None None (Some 2024))
    as (results & Hres & Hlen & Hq).
  - reflexivity.
  - intros H. exfalso. apply H. reflexivity.
  - destruct (Hq 2%nat "Q3" eq_refl) as (res & Hr & Hname & Hempty).
    destruct (Hempty eq_refl) as (Hcount & Hburn & _).
    exists results, res. auto 10.
Defined.

(** ** The snapshot: one row per employee, the latest *)

Lemma cell_eqb_refl (a : cell) : Pandas.cell_eqb a a = true.
Proof.
  destruct a; simpl; auto.
  - apply Qeq_bool_iff. reflexivity.
  - apply String.eqb_refl.
  - apply Z.eqb_refl.
Qed.

Lemma cell_eqb_sym (a b : cell) : Pandas.cell_eqb a b = Pandas.cell_eqb b a.
Proof.
  destruct a, b; simpl; auto.
  - destruct (Qeq_bool q q0) eqn:E1, (Qeq_bool q0 q) eqn:E2; auto.
    + apply Qeq_bool_iff in E1. symmetry in E1. apply Qeq_bool_iff in E1. congruence.
    + apply Qeq_bool_iff in E2. symmetry in E2. apply Qeq_bool_iff in E2. congruence.
  - apply String.eqb_sym.
  - apply Z.eqb_sym.
Qed.

Lemma cell_eqb_trans (a b c : cell) :
  Pandas.cell_eqb a b = true -> Pandas.cell_eqb b c = true -> Pandas.cell_eqb a c = true.
Proof.
  destruct a, b, c; simpl; try discriminate; auto.
  - intros H1 H2. apply Qeq_bool_iff in H1, H2. apply Qeq_bool_iff.
    rewrite H1. exact H2.
  - unfold Pandas.str_eqb. intros H1 H2. apply String.eqb_eq in H1, H2. subst.
    apply String.eqb_refl.
  - intros H1 H2. apply Z.eqb_eq in H1, H2. apply Z.eqb_eq. congruence.
Qed.

Section DropDuplicates.

Variable c : string.
Abbreviation key r := (Pandas.at_ r c).
Abbreviation dd := (Pandas.drop_duplicates_from c).

Lemma seen_equiv (seen : list cell) (a b : cell) :
  Pandas.cell_eqb a b = true ->
  existsb (Pandas.cell_eqb a) seen = existsb (Pandas.cell_eqb b) seen.
Proof.
  intros H. induction seen as [|s seen IH]; [reflexivity|].
  simpl. rewrite IH. f_equal.
  destruct (Pandas.cell_eqb a s) eqn:E1, (Pandas.cell_eqb b s) eqn:E2; auto.
  - rewrite cell_eqb_sym in H. rewrite (cell_eqb_trans _ _ _ H E1) in E2. discriminate.
  - rewrite (cell_eqb_trans _ _ _ H E2) in E1. discriminate.
Qed.

Lemma dd_in (rs : list row) :
  forall (seen : list cell) (r' : row),
    In r' (dd seen rs) -> In r' rs /\ existsb (Pandas.cell_eqb (key r')) seen = false.
Proof.
  induction rs as [|r rs IH]; intros seen r' H; [destruct H|].
  simpl in H. destruct (existsb (Pandas.cell_eqb (key r)) seen) eqn:E.
  - destruct (IH _ _ H). split; [right|]; assumption.
  - destruct H as [<- | H]; [split; [left; reflexivity | exact E]|].
    destruct (IH _ _ H) as [Hin Hs]. split; [right; exact Hin|].
    simpl in Hs. apply orb_false_iff in Hs. tauto.
Qed.

Lemma dd_count (rs : list row) :
  forall (seen : list cell) (k : cell),
    length (List.filter (fun r => Pandas.cell_eqb (key r) k) (dd seen rs))
    = if existsb (Pandas.cell_eqb k) seen then O
      else if existsb (fun r => Pandas.cell_eqb (key r) k) rs then 1%nat else O.
Proof.
  induction rs as [|r rs IH]; intros seen k.
  - simpl. destruct (existsb _ seen); reflexivity.
  - simpl. destruct (existsb (Pandas.cell_eqb (key r)) seen) eqn:E.
    + rewrite IH. destruct (existsb (Pandas.cell_eqb k) seen) eqn:Ek; [reflexivity|].
      destruct (Pandas.cell_eqb (key r) k) eqn:Erk; [|reflexivity].
      rewrite (seen_equiv seen _ _ Erk) in E. congruence.
    + simpl. destruct (Pandas.cell_eqb (key r) k) eqn:Erk.
      * simpl. rewrite IH. simpl.
        rewrite (cell_eqb_sym k (key r)), Erk. simpl.
        rewrite <- (seen_equiv seen _ _ Erk), E. reflexivity.
      * rewrite IH. simpl. rewrite (cell_eqb_sym k (key r)), Erk. reflexivity.
Qed.

Lemma dd_first (rs : list row) :
  forall (seen : list cell) (r' : row),
    In r' (dd seen rs) ->
    exists l1 l2 : list row,
      rs = l1 ++ r' :: l2 /\
      forall x, In x l1 -> Pandas.cell_eqb (key x) (key r') = false.
Proof.
  induction rs as [|r rs IH]; intros seen r' H; [destruct H|].
  simpl in H. destruct (existsb (Pandas.cell_eqb (key r)) seen) eqn:E.
  - destruct (dd_in _ _ _ H) as [_ Hs].
    destruct (IH _ _ H) as (l1 & l2 & -> & Hl1).
    exists (r :: l1), l2. split; [reflexivity|].
    intros x [Hxr | Hx]; [subst x|apply Hl1, Hx].
    destruct (Pandas.cell_eqb (key r) (key r')) eqn:Exr; [|reflexivity].
    rewrite (seen_equiv seen _ _ Exr) in E. congruence.
  - destruct H as [<- | H].
    + exists [], rs. split; [reflexivity | intros ? []].
    + destruct (dd_in _ _ _ H) as [_ Hs].
      destruct (IH _ _ H) as (l1 & l2 & -> & Hl1).
      exists (r :: l1), l2. split; [reflexivity|].
      intros x [Hxr | Hx]; [subst x|apply Hl1, Hx].
      simpl in Hs. apply orb_false_iff in Hs as [Hs _].
      rewrite cell_eqb_sym. exact Hs.
Qed.

End DropDuplicates.

Lemma key_geb_refl (a : option Z) : Pandas.key_geb a a = true.
Proof. destruct a; simpl; [apply Z.leb_refl | reflexivity]. Qed.

Lemma StronglySorted_after {A : Type} (R : A -> A -> Prop) (l1 l2 : list A) (x : A) :
  StronglySorted R (l1 ++ x :: l2) -> forall y, In y l2 -> R x y.
Proof.
  induction l1 as [|a l1 IH]; simpl; intros H y Hy.
  - apply StronglySorted_inv in H as [_ H].
    rewrite List.Forall_forall in H. apply H, Hy.
  - apply StronglySorted_inv in H as [H _]. apply (IH H y Hy).
Qed.

(** Sorting latest first and keeping the first row of every employee keeps,
    for every employee, exactly one row, and none of the employee is later. *)
Lemma latest_first (sort : string -> list row -> list row) (date_col : string)
    (rs : list row) :
  Spec.sorts_descending sort ->
  let kept := Pandas.drop_duplicates_from "employee_id" [] (sort date_col rs) in
  (forall r, In r rs ->
     length (List.filter (fun r' => Spec.same_employee r' r) kept) = 1%nat) /\
  (forall r', In r' kept ->
     In r' rs /\
     forall r, In r rs -> Spec.same_employee r r' = true ->
               Spec.no_earlier date_col r' r = true).
Proof.
  intros Hsort kept. destruct (Hsort date_col rs) as [Hperm Hsorted]. split.
  - intros r Hr. subst kept. unfold Spec.same_employee.
    rewrite (dd_count "employee_id" _ [] (Pandas.at_ r "employee_id")). simpl.
    assert (E : existsb (fun x => Pandas.cell_eqb (Pandas.at_ x "employee_id")
                                    (Pandas.at_ r "employee_id")) (sort date_col rs) = true).
    { apply existsb_exists. exists r. split; [|apply cell_eqb_refl].
      apply (Permutation_in _ (Permutation_sym Hperm) Hr). }
    rewrite E. reflexivity.
  - intros r' Hr'. subst kept.
    destruct (dd_in "employee_id" _ _ _ Hr') as [Hin _].
    split; [apply (Permutation_in _ Hperm Hin)|].
    intros r Hr Hsame.
    destruct (dd_first "employee_id" _ _ _ Hr') as (l1 & l2 & E & Hl1).
    apply (Permutation_in _ (Permutation_sym Hperm)) in Hr. rewrite E in Hr, Hsorted.
    apply in_app_or in Hr as [Hr | [<- | Hr]].
    + unfold Spec.same_employee in Hsame. rewrite (Hl1 r Hr) in Hsame. discriminate.
    + apply key_geb_refl.
    + apply (StronglySorted_after _ _ _ _ Hsorted r Hr).
Qed.

Lemma snapshot_inv (sort : string -> list row -> list row) (date_col : string)
    (metrics_df snapshot_df : DataFrame) :
  Metrics.snapshot sort date_col metrics_df = Ok snapshot_df ->
  columns snapshot_df = columns metrics_df /\
  rows snapshot_df
  = Pandas.drop_duplicates_from "employee_id" [] (sort date_col (rows metrics_df)).
Proof.
  unfold Metrics.snapshot, Pandas.drop_duplicates.
  destruct (Pandas.has_column _ "employee_id"); [|discriminate].
  intros [= <-]. split; reflexivity.
Qed.

(** Of two submissions of one employee the later one is kept. *)
Lemma two_rows_kept (sort : string -> list row -> list row) (date_col : string)
    (early late : row) :
  Spec.sorts_descending sort ->
  Spec.same_employee late early = true ->
  Spec.no_earlier date_col early late = false ->
  Pandas.drop_duplicates_from "employee_id" [] (sort date_col [early; late]) = [late].
Proof.
  intros Hsort Hsame Hlater.
  destruct (latest_first sort date_col [early; late] Hsort) as [Hone Hlatest].
  set (kept := Pandas.drop_duplicates_from _ _ _) in *.
  assert (Hall : forall r', In r' kept -> r' = late).
  { intros r' Hr'. destruct (Hlatest r' Hr') as [Hin Hmax].
    destruct Hin as [<- | [<- | []]]; [|reflexivity].
    rewrite (Hmax late (or_intror (or_introl eq_refl)) Hsame) in Hlater. discriminate. }
  specialize (Hone late (or_intror (or_introl eq_refl))).
  assert (Hrefl : Spec.same_employee late late = true) by apply cell_eqb_refl.
  destruct kept as [|a [|b kept]].
  - discriminate Hone.
  - rewrite (Hall a) by (left; reflexivity). reflexivity.
  - rewrite (Hall a), (Hall b) in Hone by (simpl; auto).
    cbn [List.filter] in Hone. rewrite Hrefl in Hone.
    cbn [length] in Hone. discriminate Hone.
Qed.


(** ** A sort by insertion sorts latest first *)

Lemma key_geb_total (a b : option Z) : Pandas.key_geb a b = false -> Pandas.key_geb b a = true.
Proof.
  destruct a as [x|], b as [y|]; simpl; try discriminate; try reflexivity.
  intros H. apply Z.leb_gt in H. apply Z.leb_le. lia.
Qed.

Lemma key_geb_trans (a b c : option Z) :
  Pandas.key_geb a b = true -> Pandas.key_geb b c = true -> Pandas.key_geb a c = true.
Proof.
  destruct a as [x|], b as [y|], c as [z|]; simpl; try discriminate; try reflexivity.
  intros H1 H2. apply Z.leb_le in H1, H2. apply Z.leb_le. lia.
Qed.

Lemma insert_desc_perm (c : string) (x : row) (l : list row) :
  Permutation (Sample.insert_desc c x l) (x :: l).
Proof.
  induction l as [|y l IH]; simpl; [reflexivity|].
  destruct (Spec.no_earlier c x y); [reflexivity|].
  rewrite IH. apply perm_swap.
Qed.

Lemma insert_desc_sorted (c : string) (x : row) (l : list row) :
  StronglySorted (fun a b => Spec.no_earlier c a b = true) l ->
  StronglySorted (fun a b => Spec.no_earlier c a b = true) (Sample.insert_desc c x l).
Proof.
  induction l as [|y l IH]; intros H; simpl.
  - constructor; constructor.
  - apply StronglySorted_inv in H as [Hl Hy].
    destruct (Spec.no_earlier c x y) eqn:E.
    + constructor; [constructor; assumption|].
      constructor; [exact E|].
      rewrite List.Forall_forall in Hy |- *. intros z Hz.
      apply (key_geb_trans _ _ _ E (Hy z Hz)).
    + constructor; [apply IH, Hl|].
      rewrite List.Forall_forall in Hy |- *. intros z Hz.
      apply (Permutation_in _ (insert_desc_perm c x l)) in Hz as [<- | Hz].
      * apply key_geb_total, E.
      * apply Hy, Hz.
Qed.

Lemma sort_desc_sorts : Spec.sorts_descending Sample.sort_desc.
Proof.
  intros c l. unfold Sample.sort_desc. induction l as [|x l [IHp IHs]]; simpl.
  - split; [reflexivity | constructor].
  - split.
    + rewrite insert_desc_perm. apply perm_skip, IHp.
    + apply insert_desc_sorted, IHs.
Qed.


(** ** The narrative summary ([insight.py]) *)

(** [generate_ai_summary] always returns: the parsed reply, or the
    placeholder when the client, the cleaning or the parser raises. *)
Lemma generate_ai_summary_returns (reply : result (option Insight.pystr)) :
  Insight.generate_ai_summary reply
  = match reply with
    | Ok (Some content) =>
        match Insight.json_loads (Insight.cleaned (Insight.strip content)) with
        | Ok parsed => parsed
        | Raise _ => Insight.placeholder
        end
    | _ => Insight.placeholder
    end.
Proof.
  unfold Insight.generate_ai_summary, Insight.clean_llm_json.
  destruct reply as [[content|]|e]; cbn [mbind result_bind try_except]; reflexivity.
Qed.

(** The fenced reply of the specification parses to its dictionary. *)
Lemma generate_ai_summary_fenced :
  Insight.cleaned (Insight.strip Sample.fenced_reply)
    = Insight.of_ascii "{" ++ Sample.dq ++ Insight.of_ascii "summary" ++ Sample.dq
      ++ Insight.of_ascii ": " ++ Sample.dq ++ Insight.of_ascii "ok" ++ Sample.dq
      ++ Insight.of_ascii "}" /\
  Insight.generate_ai_summary (Ok (Some Sample.fenced_reply)) = Sample.summary_ok.
Proof. split; vm_compute; reflexivity. Qed.

(** A reply that is no JSON gives the placeholder. *)
Lemma generate_ai_summary_not_json :
  Insight.clean_llm_json (Insight.strip Sample.not_json_reply) = Raise JSONDecodeError /\
  Insight.generate_ai_summary (Ok (Some Sample.not_json_reply)) = Insight.placeholder.
Proof. split; vm_compute; reflexivity. Qed.

Lemma replace_from_Forall (P : N -> Prop) (old new : Insight.pystr) (s : Insight.pystr) :
  Forall P new -> Forall P s ->
  forall skip, Forall P (Insight.replace_from skip old new s).
Proof.
  intros Hnew Hs. induction Hs as [|c s Hc Hs IH]; intros skip; [constructor|].
  simpl. destruct skip; [|apply IH].
  destruct (Insight.startswith old (c :: s)).
  - apply Forall_app. split; [exact Hnew | apply IH].
  - constructor; [exact Hc | apply IH].
Qed.

(** The text handed to [json.loads] holds no control character. *)
Lemma cleaned_no_control (raw_text : Insight.pystr) :
  Forall (fun c => (31 < c)%N /\ c <> 127%N) (Insight.cleaned raw_text).
Proof.
  unfold Insight.cleaned, Insight.replace. cbv zeta.
  apply replace_from_Forall.
  - constructor; [split; [reflexivity | discriminate] | constructor].
  - unfold Insight.strip_control. apply List.Forall_forall. intros c Hc.
    apply List.filter_In in Hc as [_ Hc]. apply negb_true_iff, orb_false_iff in Hc as [H1 H2].
    apply N.leb_gt in H1. apply N.eqb_neq in H2. auto.
Qed.

(** C1 at a failing input.  A reply whose JSON is written with curly quotes:
    the quote-normalising line of [clean_llm_json] replaces another text, so
    the cleaning leaves the curly quotes, [json.loads] raises and the
    placeholder is returned; with the curly quotes turned into ASCII quotes,
    as the specification has it, the reply parses to its dictionary. *)
Theorem generate_ai_summary_curly_quotes :
  Insight.cleaned (Insight.strip Sample.curly_reply) = Sample.curly_reply /\
  Insight.clean_llm_json (Insight.strip Sample.curly_reply) = Raise JSONDecodeError /\
  Insight.generate_ai_summary (Ok (Some Sample.curly_reply)) = Insight.placeholder /\
  Insight.json_loads
    (Insight.normalize_smart_quotes (Insight.cleaned (Insight.strip Sample.curly_reply)))
    = Ok Sample.summary_ok.
Proof. repeat split; vm_compute; reflexivity. Qed.
